(** * Route utils: normalised HTTP responses for Express-like handlers

    A shallow embedding of [src/index.ts] (resolveRouteResponse, wrapRoute,
    createResponder, makeRouteUtils) and the properties of its
    specification.

    The program is dynamically typed JavaScript talking to two external
    objects, the response sink [res] and the logger.  Values are modelled
    by [JsVal]; the outside world by an arbitrary state type [W] that the
    sink's and the logger's methods read and change; a computation is a
    function [W -> W * Completion A], so that what a method did before it
    threw stays done, as in JavaScript. *)

From Stdlib Require Import ZArith List String Bool Lia DecimalString.
Import ListNotations.

Local Open Scope string_scope.
Local Open Scope list_scope.

(** ** JavaScript values *)

(** Objects are told apart by what [instanceof Error] and [Array.isArray]
    would say; all of them answer "object" to [typeof]. *)
Inductive ObjKind := KPlain | KArray | KError.

(** A number is integer-valued ([JNum]) or not ([JNonInt]: a fraction, NaN
    or an infinity).  The program asks a number only [Number.isInteger],
    compares it once that holds, and converts it with [String]; so a number
    that is no integer is carried by its rendering, e.g. [JNonInt "3.5"].
    An object is the list of its own properties in insertion order; an array
    has its indices as keys. *)
#[warnings="-register-all"]
Inductive JsVal :=
| JUndefined
| JNull
| JBool (b : bool)
| JNum (z : Z)
| JNonInt (repr : string)
| JStr (s : string)
| JFun (src : string)
| JObj (kind : ObjKind) (props : list (string * JsVal)).

Definition Props := list (string * JsVal).

Fixpoint lookup (k : string) (ps : Props) : option JsVal :=
  match ps with
  | [] => None
  | (k', v) :: tl => if String.eqb k' k then Some v else lookup k tl
  end.

(** [Object.prototype.hasOwnProperty.call(v, k)] on an object. *)
Definition hasOwn (v : JsVal) (k : string) : bool :=
  match v with
  | JObj _ ps => match lookup k ps with Some _ => true | None => false end
  | _ => false
  end.

(** What the prototype answers when the object has no own property:
    [Error.prototype.name] is "Error" and [Error.prototype.message] is
    the empty string. *)
Definition protoProp (kind : ObjKind) (k : string) : JsVal :=
  match kind with
  | KError =>
      if String.eqb k "name" then JStr "Error"
      else if String.eqb k "message" then JStr ""
      else JUndefined
  | _ => JUndefined
  end.

(** [v?.k].  Every plain [v.k] of the program is on a value already known
    to be an object, where the two agree. *)
Definition getProp (v : JsVal) (k : string) : JsVal :=
  match v with
  | JObj kind ps =>
      match lookup k ps with Some x => x | None => protoProp kind k end
  | _ => JUndefined
  end.

(** ToBoolean. *)
Definition truthy (v : JsVal) : bool :=
  match v with
  | JUndefined | JNull => false
  | JBool b => b
  | JNum z => negb (z =? 0)%Z
  | JNonInt r => negb (String.eqb r "NaN")
  | JStr s => negb (String.eqb s "")
  | JFun _ | JObj _ _ => true
  end.

Definition typeof (v : JsVal) : string :=
  match v with
  | JUndefined => "undefined"
  | JNull | JObj _ _ => "object"
  | JBool _ => "boolean"
  | JNum _ | JNonInt _ => "number"
  | JStr _ => "string"
  | JFun _ => "function"
  end.

(** [v instanceof Error]. *)
Definition instanceofError (v : JsVal) : bool :=
  match v with JObj KError _ => true | _ => false end.

(** [v === lit] for a primitive [lit]; the program compares with literals
    only, so two objects never meet here. *)
Definition strictEq (v lit : JsVal) : bool :=
  match v, lit with
  | JUndefined, JUndefined | JNull, JNull => true
  | JBool a, JBool b => Bool.eqb a b
  | JNum a, JNum b => (a =? b)%Z
  | JNonInt a, JNonInt b => String.eqb a b && negb (String.eqb a "NaN")
  | JStr a, JStr b => String.eqb a b
  | _, _ => false
  end.

(** [Number.isInteger(v)]: no coercion, false on everything but an
    integer-valued number. *)
Definition isInteger (v : JsVal) : bool :=
  match v with JNum _ => true | _ => false end.

(** [v >= n] and [v <= n], evaluated by the program on integers only. *)
Definition numGe (v : JsVal) (n : Z) : bool :=
  match v with JNum z => (n <=? z)%Z | _ => false end.

Definition numLe (v : JsVal) (n : Z) : bool :=
  match v with JNum z => (z <=? n)%Z | _ => false end.

(** [a ?? b]. *)
Definition nullishOr (a b : JsVal) : JsVal :=
  match a with JUndefined | JNull => b | _ => a end.

(** [a || b]. *)
Definition jsOr (a b : JsVal) : JsVal := if truthy a then a else b.

(** [Object.entries(v)] of an object: its own enumerable properties.  The
    [message] and [stack] of an Error are own but not enumerable. *)
Definition ownEntries (v : JsVal) : Props :=
  match v with
  | JObj KError ps =>
      filter (fun kv => negb (String.eqb (fst kv) "message" || String.eqb (fst kv) "stack")) ps
  | JObj _ ps => ps
  | _ => []
  end.

Fixpoint joinComma (l : list string) : string :=
  match l with
  | [] => ""
  | [s] => s
  | s :: tl => s ++ "," ++ joinComma tl
  end.

(** [String(v)], also the conversion of a template literal, for values with
    the built-in prototypes.  An integer is written in decimal, which is
    what JavaScript does below 1e21. *)
Fixpoint js_String (v : JsVal) : string :=
  match v with
  | JUndefined => "undefined"
  | JNull => "null"
  | JBool true => "true"
  | JBool false => "false"
  | JNum z => NilZero.string_of_int (Z.to_int z)
  | JNonInt r => r
  | JStr s => s
  | JFun src => src
  | JObj KPlain _ => "[object Object]"
  | JObj KArray ps =>
      joinComma
        ((fix elems (l : Props) : list string :=
            match l with
            | [] => []
            | (_, x) :: tl =>
                match x with
                | JUndefined | JNull => ""
                | _ => js_String x
                end :: elems tl
            end) ps)
  | JObj KError ps =>
      let field :=
        fix field (k dflt : string) (l : Props) : string :=
          match l with
          | [] => dflt
          | (k', x) :: tl =>
              if String.eqb k' k
              then match x with JUndefined => dflt | _ => js_String x end
              else field k dflt tl
          end in
      let name := field "name" "Error" ps in
      let msg := field "message" "" ps in
      if String.eqb name "" then msg
      else if String.eqb msg "" then name
      else name ++ ": " ++ msg
  end.

(** The TypeError the runtime raises, with V8's wording. *)
Definition typeError (msg : string) : JsVal :=
  JObj KError [("name", JStr "TypeError"); ("message", JStr msg)].

(** ** Computations: state of the world and exceptions *)

Inductive Completion (A : Type) :=
| Normal (a : A)
| Throw (e : JsVal).
Arguments Normal {A} a.
Arguments Throw {A} e.

Definition Eff (W A : Type) : Type := W -> W * Completion A.

Definition ret {W A} (a : A) : Eff W A := fun w => (w, Normal a).

Definition throw {W A} (e : JsVal) : Eff W A := fun w => (w, Throw e).

Definition bind {W A B} (c : Eff W A) (k : A -> Eff W B) : Eff W B :=
  fun w =>
    match c w with
    | (w', Normal a) => k a w'
    | (w', Throw e) => (w', Throw e)
    end.

(** [try { c } catch (e) { h e }]. *)
Definition tryCatch {W A} (c : Eff W A) (h : JsVal -> Eff W A) : Eff W A :=
  fun w =>
    match c w with
    | (w', Normal a) => (w', Normal a)
    | (w', Throw e) => h e w'
    end.

Declare Scope eff_scope.
Delimit Scope eff_scope with eff.
Notation "x <- c ;; k" := (bind c (fun x => k))
  (at level 61, c at next level, right associativity) : eff_scope.
Notation "c ;; k" := (bind c (fun _ => k))
  (at level 61, right associativity) : eff_scope.
Local Open Scope eff_scope.

(** ** The response sink and the logger *)

Section Program.

Context {W : Type}.

(** [ResLike].  A member is [Some f] when [typeof] says "function" of it and
    [None] otherwise (missing, or some other value: the program cannot tell
    them apart).  A method changes the world and returns [this], or throws;
    [res_headersSent] is the truthiness of the property as it reads now. *)
Record ResLike := {
  res_status : option (JsVal -> Eff W unit);
  res_json : option (JsVal -> Eff W unit);
  res_send : option (option JsVal -> Eff W unit);
  res_setHeader : option (string -> string -> Eff W unit);
  res_headersSent : W -> bool
}.

(** [LoggerFn]. *)
Definition LoggerFn : Type := JsVal -> string -> Eff W unit.

Definition noopLogger : LoggerFn := fun _ _ => ret tt.

Definition isFunction {F : Type} (m : option F) : bool :=
  match m with Some _ => true | None => false end.

(** The sink as the program receives it: [None] is [null] or [undefined],
    on which every member access raises a TypeError. *)
Definition Sink : Type := option ResLike.

(** [res.headersSent]. *)
Definition readHeadersSent (res : Sink) : Eff W bool :=
  match res with
  | Some r => fun w => (w, Normal (res_headersSent r w))
  | None => throw (typeError "Cannot read properties of undefined (reading 'headersSent')")
  end.

(** [res.status(code)]. *)
Definition callStatus (res : Sink) (code : JsVal) : Eff W unit :=
  match res with
  | Some r =>
      match res_status r with
      | Some f => f code
      | None => throw (typeError "res.status is not a function")
      end
  | None => throw (typeError "Cannot read properties of undefined (reading 'status')")
  end.

(** [.json(body)] on what [res.status] returned, the sink itself. *)
Definition callJson (res : Sink) (body : JsVal) : Eff W unit :=
  match res with
  | Some r =>
      match res_json r with
      | Some f => f body
      | None => throw (typeError "res.status(...).json is not a function")
      end
  | None => throw (typeError "Cannot read properties of undefined (reading 'json')")
  end.

(** [.send()] on what [res.status] returned. *)
Definition callSend (res : Sink) (body : option JsVal) : Eff W unit :=
  match res with
  | Some r =>
      match res_send r with
      | Some f => f body
      | None => throw (typeError "res.status(...).send is not a function")
      end
  | None => throw (typeError "Cannot read properties of undefined (reading 'send')")
  end.

(** [try { res.setHeader?.(k, String(v)) } catch { }]. *)
Definition setHeaderQuietly (r : ResLike) (k : string) (v : JsVal) : Eff W unit :=
  match res_setHeader r with
  | Some f => tryCatch (f k (js_String v)) (fun _ => ret tt)
  | None => ret tt
  end.

Fixpoint forEntries (r : ResLike) (es : Props) : Eff W unit :=
  match es with
  | [] => ret tt
  | (k, v) :: tl => setHeaderQuietly r k v ;; forEntries r tl
  end.

(** ** resolveRouteResponse *)

Definition missingStatusBody : JsVal :=
  JObj KPlain [("error", JStr "MissingStatus");
               ("message", JStr "Missing `status` on response object")].

Definition invalidStatusBody : JsVal :=
  JObj KPlain [("status", JBool false);
               ("error", JStr "InvalidStatusField");
               ("message", JStr "`status` must be boolean")].

Definition unhandledBody (error : JsVal) : JsVal :=
  JObj KPlain [("status", JBool false);
               ("error", JStr "UnhandledResponderError");
               ("message", jsOr (getProp error "message") (JStr "Unexpected error"))].

Definition hasStatus (response : JsVal) : bool :=
  truthy response && String.eqb (typeof response) "object" && hasOwn response "status".

Definition isOk (response : JsVal) : bool :=
  strictEq (getProp response "status") (JBool true).

Definition isFail (response : JsVal) : bool :=
  strictEq (getProp response "status") (JBool false).

Definition explicit (response : JsVal) : bool :=
  isInteger (getProp response "http")
  && numGe (getProp response "http") 100
  && numLe (getProp response "http") 599.

Definition noData (response : JsVal) : bool :=
  strictEq (getProp response "data") JUndefined
  || strictEq (getProp response "data") JNull
  || strictEq (getProp response "data") (JStr "").

Definition http (response : JsVal) : JsVal :=
  if explicit response then getProp response "http"
  else if isOk response then (if noData response then JNum 204 else JNum 200)
  else JNum 400.

(** The spread of an optional field: [...(x ? { k: x } : {})]. *)
Definition spreadIf (k : string) (x : JsVal) : Props :=
  if truthy x then [(k, x)] else [].

Definition errBody (raw : JsVal) : JsVal :=
  if instanceofError raw then
    JObj KPlain [("error", jsOr (getProp raw "name") (JStr "Error"));
                 ("message", getProp raw "message")]
  else if truthy raw && String.eqb (typeof raw) "object" then
    JObj KPlain (spreadIf "error" (getProp raw "error")
                 ++ spreadIf "message" (getProp raw "message"))
  else
    JObj KPlain [("error", JStr "RequestFailed");
                 ("message", if String.eqb (typeof raw) "string" then raw
                             else JStr "Request failed")].

Definition applyHeaders (r : ResLike) (response : JsVal) : Eff W unit :=
  if truthy (getProp response "headers")
     && String.eqb (typeof (getProp response "headers")) "object"
  then forEntries r (ownEntries (getProp response "headers"))
  else ret tt.

(** The body of the outer [try]. *)
Definition resolveTry (res : Sink) (response : JsVal) : Eff W bool :=
  match res with
  | None => ret false
  | Some r =>
      if negb (isFunction (res_status r)) || negb (isFunction (res_send r))
      then ret false
      else
        sent <- readHeadersSent res ;;
        if sent then ret true
        else if negb (hasStatus response) then
          callStatus res (JNum 500) ;; callJson res missingStatusBody ;; ret true
        else
          applyHeaders r response ;;
          if isOk response then
            (if strictEq (http response) (JNum 204)
             then callStatus res (http response) ;; callSend res None
             else callStatus res (http response) ;;
                  callJson res (getProp response "data")) ;;
            ret true
          else if isFail response then
            callStatus res (http response) ;;
            callJson res (errBody (getProp response "data")) ;;
            ret true
          else
            callStatus res (JNum 500) ;; callJson res invalidStatusBody ;; ret true
  end.

(** The last resort: one more attempt at a 500, whose own failure is
    swallowed. *)
Definition resolveCatch (res : Sink) (error : JsVal) : Eff W bool :=
  tryCatch
    (sent <- readHeadersSent res ;;
     (if negb sent
      then callStatus res (JNum 500) ;; callJson res (unhandledBody error)
      else ret tt) ;;
     ret true)
    (fun _ => ret true).

Definition resolveRouteResponse (res : Sink) (response : JsVal) : Eff W bool :=
  tryCatch (resolveTry res response) (resolveCatch res).

End Program.

(** ** makeRouteUtils: wrapRoute and createResponder *)

Section Wrappers.

Context {W : Type}.

(** The [options] of both wrappers: [{ tag?: string; logger?: LoggerFn }]. *)
Record Options := {
  opt_tag : option string;
  opt_logger : option (@LoggerFn W)
}.

(** A route handler [(req, res) => ApiResponse | Promise<ApiResponse>], run
    to the point where the awaited promise settles: it returns a value or
    throws (rejects), and may have used the sink meanwhile. *)
Definition Handler : Type := JsVal -> @Sink W -> Eff W JsVal.

(** A unit of work [() => ApiResponse | Promise<ApiResponse>]. *)
Definition WorkFn : Type := Eff W JsVal.

(** [options.tag || ...]: an empty tag is falsy. *)
Definition tagOr (tag : option string) (dflt : string) : string :=
  match tag with
  | Some s => if String.eqb s "" then dflt else s
  | None => dflt
  end.

(** The tag of the handler returned by wrapRoute. *)
Definition routeTag (tagPrefix : string) (tag : option string) (req : JsVal) : string :=
  let baseTag :=
    tagOr tag
      (js_String (nullishOr (getProp req "method") (JStr "?"))
       ++ " "
       ++ js_String (nullishOr (getProp req "originalUrl") (JStr "?")))%string in
  if String.eqb tagPrefix "" then baseTag else (tagPrefix ++ baseTag)%string.

Definition pickLogger (options : Options) (logger : @LoggerFn W) : @LoggerFn W :=
  match opt_logger options with Some l => l | None => logger end.

(** [if (!res.headersSent) res.status(500).json(body)]. *)
Definition bestEffort500 (res : @Sink W) (body : JsVal) : Eff W unit :=
  sent <- readHeadersSent res ;;
  if negb sent then callStatus res (JNum 500) ;; callJson res body else ret tt.

Definition wrapRoute (logger : @LoggerFn W) (tagPrefix : string)
    (handler : Handler) (options : Options)
    : JsVal -> @Sink W -> Eff W unit :=
  let routeLogger := pickLogger options logger in
  fun req res =>
    let tag := routeTag tagPrefix (opt_tag options) req in
    tryCatch
      (response <- handler req res ;;
       sent <- resolveRouteResponse res response ;;
       if sent then ret tt
       else
         routeLogger
           (JObj KPlain [("message", JStr "Unexpected response shape");
                         ("response", response);
                         ("route", JStr tag)])
           tag ;;
         bestEffort500 res (JObj KPlain [("error", JStr "UnexpectedResponseShape")]))
      (fun err =>
         routeLogger err (tag ++ "/catch")%string ;;
         bestEffort500 res
           (JObj KPlain [("error", jsOr (getProp err "message") (JStr "Unexpected error"))])).

Definition createResponder (logger : @LoggerFn W)
    (res : @Sink W) (options : Options) : WorkFn -> Eff W bool :=
  let tagBase := opt_tag options in
  let routeLogger := pickLogger options logger in
  fun workFn =>
    tryCatch
      (response <- workFn ;;
       sent <- resolveRouteResponse res response ;;
       if sent then ret true
       else
         routeLogger
           (JObj KPlain [("message", JStr "Unexpected response shape");
                         ("response", response)])
           (tagOr tagBase "createResponder") ;;
         bestEffort500 res
           (JObj KPlain [("status", JBool false);
                         ("error", JStr "UnexpectedResponseShape")]) ;;
         ret true)
      (fun error =>
         routeLogger error (tagOr tagBase "createResponder" ++ "/catch")%string ;;
         bestEffort500 res
           (JObj KPlain [("status", JBool false);
                         ("error", jsOr (getProp error "message") (JStr "Unexpected error"))]) ;;
         ret true).

Record RouteUtils := {
  ru_wrapRoute : Handler -> Options -> JsVal -> @Sink W -> Eff W unit;
  ru_createResponder : @Sink W -> Options -> WorkFn -> Eff W bool;
  ru_resolveRouteResponse : @Sink W -> JsVal -> Eff W bool
}.

(** [makeRouteUtils({ logger = noopLogger, tagPrefix = "" } = {})]. *)
Definition makeRouteUtils (logger : option (@LoggerFn W)) (tagPrefix : option string)
    : RouteUtils :=
  let logger := match logger with Some l => l | None => noopLogger end in
  let tagPrefix := match tagPrefix with Some p => p | None => "" end in
  {| ru_wrapRoute := wrapRoute logger tagPrefix;
     ru_createResponder := createResponder logger;
     ru_resolveRouteResponse := resolveRouteResponse |}.

End Wrappers.

(** ** A recording sink and a recording logger

    The world is the trace of what was done to the sink and to the logger,
    oldest first.  [recorder] is an Express-like response object reduced to
    what the program can see of it: every method records its call and
    returns the sink, and [headersSent] holds once a body was sent. *)

Inductive Event :=
| EStatus (code : JsVal)
| ESetHeader (name value : string)
| ESend (body : option JsVal)
| EJson (body : JsVal)
| ELog (payload : JsVal) (tag : string).

Definition Trace := list Event.

Definition emit (e : Event) : Eff Trace unit := fun t => (t ++ [e], Normal tt).

Definition isCommit (e : Event) : bool :=
  match e with ESend _ | EJson _ => true | _ => false end.

Definition committed (t : Trace) : bool := existsb isCommit t.

Definition recorder : @ResLike Trace := {|
  res_status := Some (fun code => emit (EStatus code));
  res_json := Some (fun body => emit (EJson body));
  res_send := Some (fun body => emit (ESend body));
  res_setHeader := Some (fun k v => emit (ESetHeader k v));
  res_headersSent := committed
|}.

(** The same sink without a [json] method. *)
Definition recorderNoJson : @ResLike Trace := {|
  res_status := res_status recorder;
  res_json := None;
  res_send := res_send recorder;
  res_setHeader := res_setHeader recorder;
  res_headersSent := committed
|}.

Definition recLogger : @LoggerFn Trace := fun payload tag => emit (ELog payload tag).

(** The header calls a result causes on [recorder]. *)
Definition headerEvents (response : JsVal) : Trace :=
  if truthy (getProp response "headers")
     && String.eqb (typeof (getProp response "headers")) "object"
  then map (fun kv => ESetHeader (fst kv) (js_String (snd kv)))
           (ownEntries (getProp response "headers"))
  else [].

(** ** Vocabulary of the statements *)

Section Vocabulary.

Context {W : Type}.

(** A computation that, whatever the world, returns [true] or throws. *)
Definition trueOrThrow (c : Eff W bool) : Prop :=
  forall w, snd (c w) = Normal true \/ exists e, snd (c w) = Throw e.

(** The sink has the two members the guard of resolveRouteResponse asks
    for. *)
Definition capable (res : @Sink W) : bool :=
  match res with
  | Some r => isFunction (res_status r) && isFunction (res_send r)
  | None => false
  end.

End Vocabulary.

(** The properties of an object but for those named [k]. *)
Definition dropKey (k : string) (ps : Props) : Props :=
  filter (fun kv => negb (String.eqb (fst kv) k)) ps.

(** A sink of the right shape whose [json] fails, as it does when the
    connection is gone or the body cannot be serialised. *)
Definition writeFailed : JsVal := JObj KError [("message", JStr "write failed")].

Definition failingJson : @ResLike Trace := {|
  res_status := res_status recorder;
  res_json := Some (fun _ => throw writeFailed);
  res_send := res_send recorder;
  res_setHeader := res_setHeader recorder;
  res_headersSent := committed
|}.

(** An object that fails the guard: no [status] method. *)
Definition recorderNoStatus : @ResLike Trace := {|
  res_status := None;
  res_json := res_json recorder;
  res_send := res_send recorder;
  res_setHeader := res_setHeader recorder;
  res_headersSent := committed
|}.

Definition noOptions {W : Type} : @Options W := {| opt_tag := None; opt_logger := None |}.

(** What resolveRouteResponse does to a [recorder] that has sent nothing
    yet, read off the branches of its body; [resolve_recorder] below proves
    it. *)
Definition commitEvents (response : JsVal) : Trace :=
  if isOk response then
    if strictEq (http response) (JNum 204)
    then [EStatus (http response); ESend None]
    else [EStatus (http response); EJson (getProp response "data")]
  else if isFail response then
    [EStatus (http response); EJson (errBody (getProp response "data"))]
  else [EStatus (JNum 500); EJson invalidStatusBody].

Definition recorderEvents (response : JsVal) : Trace :=
  if hasStatus response
  then headerEvents response ++ commitEvents response
  else [EStatus (JNum 500); EJson missingStatusBody].

(** ** Sinks that fail

    A recording sink whose calls may fail.  A call described by the event
    [e] is refused when [before e] holds, and then has no effect; it takes
    effect and then throws when [after e] holds; it throws [err] in both
    cases. *)
Definition flakyCall (err : JsVal) (before after : Event -> bool) (e : Event)
    : Eff Trace unit :=
  fun t =>
    if before e then (t, Throw err)
    else if after e then (t ++ [e], Throw err)
    else (t ++ [e], Normal tt).

Definition flaky (err : JsVal) (before after : Event -> bool) : @ResLike Trace := {|
  res_status := Some (fun code => flakyCall err before after (EStatus code));
  res_json := Some (fun body => flakyCall err before after (EJson body));
  res_send := Some (fun body => flakyCall err before after (ESend body));
  res_setHeader := Some (fun k v => flakyCall err before after (ESetHeader k v));
  res_headersSent := committed
|}.

(** A recording sink without [send]: it fails the guard, but its [status]
    and [json] work. *)
Definition recorderNoSend : @ResLike Trace := {|
  res_status := res_status recorder;
  res_json := res_json recorder;
  res_send := None;
  res_setHeader := res_setHeader recorder;
  res_headersSent := committed
|}.

(** The number of bodies sent in a trace. *)
Definition commits (t : Trace) : nat := List.length (filter isCommit t).

Definition isHeader (e : Event) : bool :=
  match e with ESetHeader _ _ => true | _ => false end.

(** ** Reasoning about computations *)

Section EffFacts.

Context {W : Type}.

Lemma trueOrThrow_ret : @trueOrThrow W (ret true).
Proof. intros w. left. reflexivity. Qed.

Lemma trueOrThrow_bind {A} (c : Eff W A) (k : A -> Eff W bool) :
  (forall a, trueOrThrow (k a)) -> trueOrThrow (bind c k).
Proof.
  intros Hk w. unfold bind.
  destruct (c w) as [w' [a | e]].
  - apply Hk.
  - right. exists e. reflexivity.
Qed.

Lemma trueOrThrow_if (b : bool) (c1 c2 : Eff W bool) :
  trueOrThrow c1 -> trueOrThrow c2 -> trueOrThrow (if b then c1 else c2).
Proof. destruct b; auto. Qed.

(** A [try] whose body returns [true] or throws and whose handler always
    returns [true] always returns [true]. *)
Lemma tryCatch_true (c : Eff W bool) (h : JsVal -> Eff W bool) :
  trueOrThrow c ->
  (forall e w, snd (h e w) = Normal true) ->
  forall w, snd (tryCatch c h w) = Normal true.
Proof.
  intros Hc Hh w. unfold tryCatch.
  destruct (Hc w) as [H | [e H]]; destruct (c w) as [w' [a | e']];
    simpl in H; try discriminate.
  - injection H as ->. reflexivity.
  - apply Hh.
Qed.

Lemma resolveCatch_true (res : @Sink W) (error : JsVal) (w : W) :
  snd (resolveCatch res error w) = Normal true.
Proof.
  unfold resolveCatch, tryCatch, bind.
  destruct (readHeadersSent res w) as [w1 [sent | e]]; [| reflexivity].
  destruct (negb sent); [| reflexivity].
  destruct (callStatus res (JNum 500) w1) as [w2 [[] | e]]; [| reflexivity].
  destruct (callJson res (unhandledBody error) w2) as [w3 [[] | e]]; reflexivity.
Qed.

Lemma resolveTry_capable (res : @Sink W) (response : JsVal) :
  capable res = true -> trueOrThrow (resolveTry res response).
Proof.
  destruct res as [r |]; [| discriminate]. simpl. intros Hcap.
  apply andb_prop in Hcap as [Hs Hd]. rewrite Hs, Hd. simpl.
  repeat first
    [ apply trueOrThrow_ret
    | apply trueOrThrow_if
    | apply trueOrThrow_bind; intros ? ].
Qed.

Lemma resolveTry_incapable (res : @Sink W) (response : JsVal) (w : W) :
  capable res = false -> resolveTry res response w = (w, Normal false).
Proof.
  destruct res as [r |]; [| reflexivity]. simpl. intros Hcap.
  apply andb_false_iff in Hcap as [H | H]; rewrite H; simpl;
    [| rewrite orb_true_r]; reflexivity.
Qed.

(** resolveRouteResponse never throws, and what it returns says whether the
    sink passed the guard. *)
Lemma resolve_returns (res : @Sink W) (response : JsVal) (w : W) :
  snd (resolveRouteResponse res response w) = Normal (capable res).
Proof.
  destruct (capable res) eqn:Hcap.
  - apply tryCatch_true.
    + apply resolveTry_capable, Hcap.
    + intros e w'. apply resolveCatch_true.
  - unfold resolveRouteResponse, tryCatch.
    rewrite resolveTry_incapable by exact Hcap. reflexivity.
Qed.

Lemma resolve_incapable (res : @Sink W) (response : JsVal) (w : W) :
  capable res = false -> resolveRouteResponse res response w = (w, Normal false).
Proof.
  intros Hcap. unfold resolveRouteResponse, tryCatch.
  rewrite resolveTry_incapable by exact Hcap. reflexivity.
Qed.

Lemma resolve_committed (r : @ResLike W) (response : JsVal) (w : W) :
  capable (Some r) = true -> res_headersSent r w = true ->
  resolveRouteResponse (Some r) response w = (w, Normal true).
Proof.
  simpl. intros Hcap Hsent.
  apply andb_prop in Hcap as [Hs Hd].
  unfold resolveRouteResponse, tryCatch, resolveTry.
  rewrite Hs, Hd. cbn [negb orb].
  unfold bind, readHeadersSent. rewrite Hsent. reflexivity.
Qed.

End EffFacts.

(** ** The recording sink *)

Section RecorderFacts.

Variable r : @ResLike Trace.
Hypothesis r_setHeader : res_setHeader r = Some (fun k v => emit (ESetHeader k v)).

Lemma forEntries_trace (es : Props) (t : Trace) :
  forEntries r es t
  = (t ++ map (fun kv => ESetHeader (fst kv) (js_String (snd kv))) es, Normal tt).
Proof.
  revert t. induction es as [| [k v] tl IH]; intros t.
  - simpl. unfold ret. rewrite app_nil_r. reflexivity.
  - simpl. unfold bind, setHeaderQuietly. rewrite r_setHeader.
    unfold tryCatch, emit. rewrite IH, <- app_assoc. reflexivity.
Qed.

Lemma applyHeaders_trace (response : JsVal) (t : Trace) :
  applyHeaders r response t = (t ++ headerEvents response, Normal tt).
Proof.
  unfold applyHeaders, headerEvents.
  destruct (truthy (getProp response "headers")
            && String.eqb (typeof (getProp response "headers")) "object").
  - apply forEntries_trace.
  - unfold ret. rewrite app_nil_r. reflexivity.
Qed.

End RecorderFacts.

Lemma resolve_recorder (response : JsVal) (t : Trace) :
  committed t = false ->
  resolveRouteResponse (Some recorder) response t
  = (t ++ recorderEvents response, Normal true).
Proof.
  intros Hfresh.
  unfold resolveRouteResponse, tryCatch, resolveTry, recorderEvents, commitEvents.
  cbn [recorder res_status res_send isFunction negb orb].
  unfold bind at 1. unfold readHeadersSent.
  change (res_headersSent recorder t) with (committed t). rewrite Hfresh.
  destruct (hasStatus response); cbn [negb].
  - unfold bind at 1. rewrite applyHeaders_trace by reflexivity.
    destruct (isOk response); [destruct (strictEq (http response) (JNum 204)) |
                               destruct (isFail response)];
      cbv [bind callStatus callSend callJson recorder res_status res_json res_send emit ret];
      rewrite <- !app_assoc; reflexivity.
  - cbv [bind callStatus callJson recorder res_status res_json emit ret].
    rewrite <- !app_assoc. reflexivity.
Qed.

(** ** Status code and body *)

Lemma strictEq_undefined (v : JsVal) : strictEq v JUndefined = true <-> v = JUndefined.
Proof. destruct v; simpl; split; intros H; try discriminate; reflexivity. Qed.

Lemma strictEq_null (v : JsVal) : strictEq v JNull = true <-> v = JNull.
Proof. destruct v; simpl; split; intros H; try discriminate; reflexivity. Qed.

Lemma strictEq_str (v : JsVal) (s : string) : strictEq v (JStr s) = true <-> v = JStr s.
Proof.
  destruct v; simpl; split; intros H; try discriminate.
  - apply String.eqb_eq in H. congruence.
  - injection H as ->. apply String.eqb_refl.
Qed.

Lemma noData_true (response : JsVal) :
  noData response = true <->
  getProp response "data" = JUndefined
  \/ getProp response "data" = JNull
  \/ getProp response "data" = JStr "".
Proof.
  unfold noData.
  rewrite !orb_true_iff, strictEq_undefined, strictEq_null, strictEq_str.
  tauto.
Qed.

Lemma noData_false (response : JsVal) :
  getProp response "data" <> JUndefined ->
  getProp response "data" <> JNull ->
  getProp response "data" <> JStr "" ->
  noData response = false.
Proof.
  intros H1 H2 H3. destruct (noData response) eqn:E; [| reflexivity].
  apply noData_true in E. tauto.
Qed.

Lemma status_bool (response : JsVal) (b : bool) :
  getProp response "status" = JBool b ->
  isOk response = b /\ isFail response = negb b.
Proof. unfold isOk, isFail. intros ->. destruct b; split; reflexivity. Qed.

(** With no valid explicit code the code is the default one. *)
Lemma http_default (response : JsVal) (b : bool) :
  getProp response "status" = JBool b -> explicit response = false ->
  http response = JNum (if b then if noData response then 204 else 200 else 400).
Proof.
  intros Hs He. unfold http. rewrite He.
  destruct (status_bool _ _ Hs) as [-> _].
  destruct b; [destruct (noData response) |]; reflexivity.
Qed.

Lemma explicit_valid (response : JsVal) (h : Z) :
  getProp response "http" = JNum h -> (100 <= h <= 599)%Z ->
  explicit response = true /\ http response = JNum h.
Proof.
  intros Hh Hr. unfold http, explicit. rewrite Hh. simpl.
  assert ((100 <=? h)%Z = true) as -> by (apply Z.leb_le; lia).
  assert ((h <=? 599)%Z = true) as -> by (apply Z.leb_le; lia).
  split; reflexivity.
Qed.

Lemma explicit_invalid (response : JsVal) :
  (forall h, getProp response "http" = JNum h -> (h < 100 \/ 599 < h)%Z) ->
  explicit response = false.
Proof.
  intros H. unfold explicit.
  destruct (getProp response "http") as [| | | h | | | |]; try reflexivity.
  simpl. destruct (H h eq_refl) as [Hlt | Hgt].
  - assert ((100 <=? h)%Z = false) as -> by (apply Z.leb_gt; lia). reflexivity.
  - assert ((h <=? 599)%Z = false) as -> by (apply Z.leb_gt; lia).
    apply andb_false_r.
Qed.

Lemma commitEvents_commit (response : JsVal) :
  exists ev, isCommit ev = true
             /\ commitEvents response = [EStatus (if isOk response || isFail response
                                                  then http response else JNum 500); ev].
Proof.
  unfold commitEvents.
  destruct (isOk response); [destruct (strictEq (http response) (JNum 204)) |
                             destruct (isFail response)];
    eexists; (split; [| reflexivity]); reflexivity.
Qed.

(** C1. On a sink that has sent nothing, a result object with a boolean
    [status] and no valid explicit [http] is answered with the default
    code, after its headers: 204 and [send()] without a body when [status]
    is true and [data] is undefined, null or the empty string; 200 and
    [json(data)] when [status] is true with any other [data]; 400 when
    [status] is false.  The call returns true. *)
Theorem default_status_code (response : JsVal) (t : Trace) :
  hasStatus response = true -> explicit response = false -> committed t = false ->
  let data := getProp response "data" in
  let sent evs :=
    resolveRouteResponse (Some recorder) response t
    = (t ++ headerEvents response ++ evs, Normal true) in
  (getProp response "status" = JBool true ->
   data = JUndefined \/ data = JNull \/ data = JStr "" ->
   sent [EStatus (JNum 204); ESend None])
  /\ (getProp response "status" = JBool true ->
      data <> JUndefined -> data <> JNull -> data <> JStr "" ->
      sent [EStatus (JNum 200); EJson data])
  /\ (getProp response "status" = JBool false ->
      sent [EStatus (JNum 400); EJson (errBody data)]).
Proof.
  intros Hst Hex Hfresh data sent. subst sent. cbv beta.
  rewrite (resolve_recorder response t Hfresh).
  unfold recorderEvents, commitEvents. rewrite Hst.
  repeat split.
  - intros Hs Hd. rewrite (http_default _ _ Hs Hex).
    destruct (status_bool _ _ Hs) as [-> _].
    apply noData_true in Hd. rewrite Hd. reflexivity.
  - intros Hs H1 H2 H3. rewrite (http_default _ _ Hs Hex).
    destruct (status_bool _ _ Hs) as [-> _].
    rewrite (noData_false _ H1 H2 H3). reflexivity.
  - intros Hs. rewrite (http_default _ _ Hs Hex).
    destruct (status_bool _ _ Hs) as [-> ->]. reflexivity.
Qed.

Lemma default_status_code_witness :
  let response := JObj KPlain [("status", JBool true); ("data", JNull);
                               ("headers", JObj KPlain [("X-Test", JStr "1")])] in
  hasStatus response = true /\ explicit response = false
  /\ resolveRouteResponse (Some recorder) response []
     = ([ESetHeader "X-Test" "1"; EStatus (JNum 204); ESend None], Normal true).
Proof.
  cbv zeta. split; [reflexivity | split; [reflexivity |]].
  apply (proj1 (default_status_code
                  (JObj KPlain [("status", JBool true); ("data", JNull);
                                ("headers", JObj KPlain [("X-Test", JStr "1")])])
                  [] eq_refl eq_refl eq_refl)).
  - reflexivity.
  - right. left. reflexivity.
Defined.

(** C2. On a sink that has sent nothing, for a result object with a boolean
    [status]: an [http] that is an integer in [100,599] is the code the
    response is sent with, whatever [status] and [data]; any other [http]
    (an integer below 100 or above 599, a fraction, or no number at all) is
    ignored and the code is the default 204, 200 or 400. *)
Theorem explicit_http_code (response : JsVal) (b : bool) (t : Trace) :
  hasStatus response = true -> getProp response "status" = JBool b ->
  committed t = false ->
  let sentWith code :=
    exists ev, isCommit ev = true
      /\ resolveRouteResponse (Some recorder) response t
         = (t ++ headerEvents response ++ [EStatus code; ev], Normal true) in
  (forall h, getProp response "http" = JNum h -> (100 <= h <= 599)%Z ->
     sentWith (JNum h))
  /\ ((forall h, getProp response "http" = JNum h -> (h < 100 \/ 599 < h)%Z) ->
      sentWith (JNum (if b then if noData response then 204 else 200 else 400))).
Proof.
  intros Hst Hs Hfresh sentWith. subst sentWith. cbv beta.
  rewrite (resolve_recorder response t Hfresh).
  unfold recorderEvents. rewrite Hst.
  destruct (commitEvents_commit response) as [ev [Hev Hce]].
  destruct (status_bool _ _ Hs) as [Hok Hfail].
  assert (isOk response || isFail response = true) as Hbool
      by (rewrite Hok, Hfail; destruct b; reflexivity).
  rewrite Hbool in Hce. rewrite Hce.
  split.
  - intros h Hh Hr. destruct (explicit_valid _ _ Hh Hr) as [_ ->].
    exists ev. split; [exact Hev | reflexivity].
  - intros Hbad. rewrite (http_default _ _ Hs (explicit_invalid _ Hbad)).
    exists ev. split; [exact Hev | reflexivity].
Qed.

Lemma explicit_http_code_witness :
  let gone := JObj KPlain [("status", JBool false); ("data", JStr "gone");
                           ("http", JNum 410)] in
  let odd := JObj KPlain [("status", JBool true); ("data", JStr "pong");
                          ("http", JNonInt "3.5")] in
  (exists ev, isCommit ev = true
     /\ resolveRouteResponse (Some recorder) gone []
        = ([] ++ headerEvents gone ++ [EStatus (JNum 410); ev], Normal true))
  /\ (exists ev, isCommit ev = true
     /\ resolveRouteResponse (Some recorder) odd []
        = ([] ++ headerEvents odd ++ [EStatus (JNum 200); ev], Normal true)).
Proof.
  cbv zeta. split.
  - apply (proj1 (explicit_http_code
                    (JObj KPlain [("status", JBool false); ("data", JStr "gone");
                                  ("http", JNum 410)])
                    false [] eq_refl eq_refl eq_refl) 410%Z eq_refl).
    lia.
  - apply (proj2 (explicit_http_code
                    (JObj KPlain [("status", JBool true); ("data", JStr "pong");
                                  ("http", JNonInt "3.5")])
                    true [] eq_refl eq_refl eq_refl)).
    intros h Hh. discriminate Hh.
Defined.

(** C3 (as amended). On a sink that has sent nothing, a result object whose
    [status] is false is answered with a body derived from [data] in three
    cases: an Error gives [{error: name || "Error", message}]; any other
    object gives an object holding its [error] field if that is truthy and
    its [message] field if that is truthy, and nothing else; anything else
    gives [{error: "RequestFailed", message}] with [data] itself as message
    when it is a string and "Request failed" otherwise. *)
Theorem failure_body (response : JsVal) (t : Trace) :
  hasStatus response = true -> getProp response "status" = JBool false ->
  committed t = false ->
  let data := getProp response "data" in
  let body :=
    JObj KPlain
      match data with
      | JObj KError _ =>
          [("error", if truthy (getProp data "name") then getProp data "name"
                     else JStr "Error");
           ("message", getProp data "message")]
      | JObj _ _ =>
          (if truthy (getProp data "error") then [("error", getProp data "error")]
           else [])
          ++ (if truthy (getProp data "message")
              then [("message", getProp data "message")] else [])
      | JStr s => [("error", JStr "RequestFailed"); ("message", JStr s)]
      | _ => [("error", JStr "RequestFailed"); ("message", JStr "Request failed")]
      end in
  resolveRouteResponse (Some recorder) response t
  = (t ++ headerEvents response ++ [EStatus (http response); EJson body],
     Normal true).
Proof.
  intros Hst Hs Hfresh data body.
  rewrite (resolve_recorder response t Hfresh).
  unfold recorderEvents, commitEvents. rewrite Hst.
  destruct (status_bool _ _ Hs) as [-> ->]. cbn [negb].
  replace body with (errBody data); [reflexivity |].
  subst body. clearbody data.
  destruct data as [| | | | | | | [| |] ps];
    unfold errBody; simpl; rewrite ?andb_false_r; reflexivity.
Qed.

Lemma failure_body_witness :
  resolveRouteResponse (Some recorder)
    (JObj KPlain [("status", JBool false);
                  ("data", JObj KPlain [("error", JStr "ValidationError");
                                        ("message", JStr "Name required");
                                        ("field", JStr "name")]);
                  ("http", JNum 422)]) []
  = ([EStatus (JNum 422);
      EJson (JObj KPlain [("error", JStr "ValidationError");
                          ("message", JStr "Name required")])],
     Normal true).
Proof.
  exact (failure_body
           (JObj KPlain [("status", JBool false);
                         ("data", JObj KPlain [("error", JStr "ValidationError");
                                               ("message", JStr "Name required");
                                               ("field", JStr "name")]);
                         ("http", JNum 422)])
           [] eq_refl eq_refl eq_refl).
Defined.

(** C3 as stated fails: a field of [data] that is present but falsy, here
    the empty [error], is not copied into the body. *)
Lemma present_falsy_field_is_dropped :
  let data := JObj KPlain [("error", JStr ""); ("message", JStr "Name required")] in
  hasOwn data "error" = true
  /\ resolveRouteResponse (Some recorder)
       (JObj KPlain [("status", JBool false); ("data", data)]) []
     = ([EStatus (JNum 400);
         EJson (JObj KPlain [("message", JStr "Name required")])],
        Normal true)
  /\ hasOwn (errBody data) "error" = false.
Proof. repeat split. Qed.

(** ** The guard and the committed sink *)

(** C5. resolveRouteResponse returns, and returns false exactly when the
    sink fails the guard, that is when it is missing or its [status] or its
    [send] is no function; it then leaves the world as it was.  On every
    sink that passes the guard, having sent something earlier or not, it
    returns true. *)
Theorem false_only_without_capability {W : Type}
    (res : @Sink W) (response : JsVal) (w : W) :
  snd (resolveRouteResponse res response w) = Normal (capable res)
  /\ (capable res = false -> fst (resolveRouteResponse res response w) = w).
Proof.
  split.
  - apply resolve_returns.
  - intros Hcap. rewrite resolve_incapable by exact Hcap. reflexivity.
Qed.

Lemma false_only_without_capability_witness :
  let res := Some recorderNoStatus in
  let response := JObj KPlain [("status", JBool true); ("data", JNum 1)] in
  capable res = false
  /\ snd (resolveRouteResponse res response [EStatus (JNum 200)]) = Normal false
  /\ fst (resolveRouteResponse res response [EStatus (JNum 200)]) = [EStatus (JNum 200)].
Proof.
  cbv zeta. split; [reflexivity |].
  split.
  - exact (proj1 (false_only_without_capability _ _ _)).
  - apply (proj2 (false_only_without_capability _ _ _)). reflexivity.
Defined.

(** C6. On a sink that passes the guard and reports a response as sent,
    resolveRouteResponse returns true and leaves the world as it was,
    whatever the result; so does every further call. *)
Theorem committed_sink_untouched {W : Type}
    (r : @ResLike W) (response again : JsVal) (w : W) :
  capable (Some r) = true -> res_headersSent r w = true ->
  resolveRouteResponse (Some r) response w = (w, Normal true)
  /\ (resolveRouteResponse (Some r) response ;;
      resolveRouteResponse (Some r) again) w = (w, Normal true).
Proof.
  intros Hcap Hsent.
  pose proof (resolve_committed r response w Hcap Hsent) as H1.
  split; [exact H1 |].
  unfold bind. rewrite H1. apply resolve_committed; assumption.
Qed.

Lemma committed_sink_untouched_witness :
  let t := [EStatus (JNum 200); EJson (JStr "pong")] in
  capable (Some recorder) = true /\ committed t = true
  /\ resolveRouteResponse (Some recorder)
       (JObj KPlain [("status", JBool false); ("data", JStr "late")]) t
     = (t, Normal true).
Proof.
  cbv zeta. split; [reflexivity | split; [reflexivity |]].
  exact (proj1 (committed_sink_untouched recorder
                  (JObj KPlain [("status", JBool false); ("data", JStr "late")])
                  JNull [EStatus (JNum 200); EJson (JStr "pong")]
                  eq_refl eq_refl)).
Defined.

(** ** The [meta] field *)

Lemma lookup_dropKey (k m : string) (ps : Props) :
  k <> m -> lookup k (dropKey m ps) = lookup k ps.
Proof.
  intros Hne. induction ps as [| [k' v] tl IH]; [reflexivity |].
  simpl. destruct (String.eqb_spec k' m) as [-> | Hk']; simpl.
  - destruct (String.eqb_spec m k) as [E | _]; [congruence | exact IH].
  - rewrite IH. reflexivity.
Qed.

Lemma getProp_dropKey (kind : ObjKind) (k m : string) (ps : Props) :
  k <> m -> getProp (JObj kind (dropKey m ps)) k = getProp (JObj kind ps) k.
Proof. intros Hne. simpl. rewrite lookup_dropKey by exact Hne. reflexivity. Qed.

Lemma hasOwn_dropKey (kind : ObjKind) (k m : string) (ps : Props) :
  k <> m -> hasOwn (JObj kind (dropKey m ps)) k = hasOwn (JObj kind ps) k.
Proof. intros Hne. simpl. rewrite lookup_dropKey by exact Hne. reflexivity. Qed.

Ltac other_key := intros E; discriminate E.

(** The body of resolveRouteResponse reads [status], [http], [data] and
    [headers] of the result and nothing else. *)
Lemma resolveTry_dropMeta {W : Type} (res : @Sink W) (kind : ObjKind) (ps : Props) :
  resolveTry res (JObj kind (dropKey "meta" ps)) = resolveTry res (JObj kind ps).
Proof.
  unfold resolveTry, applyHeaders, http, explicit, noData, hasStatus, isOk, isFail.
  rewrite (hasOwn_dropKey kind "status" "meta") by other_key.
  rewrite !(getProp_dropKey kind "status" "meta") by other_key.
  rewrite !(getProp_dropKey kind "http" "meta") by other_key.
  rewrite !(getProp_dropKey kind "data" "meta") by other_key.
  rewrite !(getProp_dropKey kind "headers" "meta") by other_key.
  reflexivity.
Qed.

(** C9. Two results that differ in their [meta] field only are answered
    alike on every sink: the same changes to the world, in the same order,
    and the same returned value. *)
Theorem meta_is_not_read {W : Type}
    (res : @Sink W) (kind : ObjKind) (ps1 ps2 : Props) (w : W) :
  dropKey "meta" ps1 = dropKey "meta" ps2 ->
  resolveRouteResponse res (JObj kind ps1) w
  = resolveRouteResponse res (JObj kind ps2) w.
Proof.
  intros Hsame. unfold resolveRouteResponse.
  rewrite <- (resolveTry_dropMeta res kind ps1), <- (resolveTry_dropMeta res kind ps2).
  rewrite Hsame. reflexivity.
Qed.

Lemma meta_is_not_read_witness :
  resolveRouteResponse (Some recorder)
    (JObj KPlain [("status", JBool true); ("meta", JStr "secret"); ("data", JNum 1)]) []
  = resolveRouteResponse (Some recorder)
    (JObj KPlain [("status", JBool true); ("data", JNum 1);
                  ("meta", JObj KPlain [("page", JNum 2)])]) [].
Proof.
  apply (meta_is_not_read (Some recorder) KPlain
           [("status", JBool true); ("meta", JStr "secret"); ("data", JNum 1)]
           [("status", JBool true); ("data", JNum 1);
            ("meta", JObj KPlain [("page", JNum 2)])] []).
  reflexivity.
Defined.

(** ** A sink without [json] *)

Lemma committed_app (t1 t2 : Trace) :
  committed (t1 ++ t2) = committed t1 || committed t2.
Proof. apply existsb_app. Qed.

Lemma headerEvents_uncommitted (response : JsVal) :
  committed (headerEvents response) = false.
Proof.
  unfold headerEvents.
  destruct (truthy (getProp response "headers")
            && String.eqb (typeof (getProp response "headers")) "object");
    [| reflexivity].
  induction (ownEntries (getProp response "headers")) as [| kv tl IH];
    [reflexivity | exact IH].
Qed.

Lemma resolveCatch_noJson (error : JsVal) (t : Trace) :
  committed t = false ->
  resolveCatch (Some recorderNoJson) error t = (t ++ [EStatus (JNum 500)], Normal true).
Proof.
  intros Hfresh. unfold resolveCatch, tryCatch, bind, readHeadersSent.
  change (res_headersSent recorderNoJson t) with (committed t).
  rewrite Hfresh. reflexivity.
Qed.

(** What it does to a sink without [json] that has sent nothing, for a
    result that is not answered by a bare [send()]. *)
Lemma resolve_recorderNoJson (response : JsVal) (t : Trace) :
  committed t = false ->
  hasStatus response && isOk response && strictEq (http response) (JNum 204) = false ->
  resolveRouteResponse (Some recorderNoJson) response t
  = (t ++ (if hasStatus response
           then headerEvents response
                ++ [EStatus (if isOk response || isFail response
                             then http response else JNum 500)]
           else [EStatus (JNum 500)])
       ++ [EStatus (JNum 500)],
     Normal true).
Proof.
  intros Hfresh Hjson.
  unfold resolveRouteResponse, tryCatch, resolveTry.
  cbn [recorderNoJson recorder res_status res_send isFunction negb orb].
  unfold bind at 1. unfold readHeadersSent.
  change (res_headersSent _ t) with (committed t). rewrite Hfresh.
  destruct (hasStatus response); cbn [negb andb] in *.
  - unfold bind at 1. rewrite applyHeaders_trace by reflexivity.
    assert (committed ((t ++ headerEvents response)
                       ++ [EStatus (if isOk response || isFail response
                                    then http response else JNum 500)]) = false) as Hc.
    { rewrite !committed_app, Hfresh, headerEvents_uncommitted. reflexivity. }
    destruct (isOk response); cbn [andb orb] in *;
      [rewrite Hjson | destruct (isFail response)];
      cbv [bind callStatus callSend callJson recorderNoJson recorder
           res_status res_json res_send emit ret throw];
      rewrite (resolveCatch_noJson _ _ Hc), <- !app_assoc; reflexivity.
  - cbv [bind callStatus callJson recorderNoJson recorder
         res_status res_json emit ret throw].
    rewrite resolveCatch_noJson, <- !app_assoc; [reflexivity |].
    rewrite committed_app, Hfresh. reflexivity.
Qed.

(** C10. The guard looks at [status] and [send] only: on every sink that
    has both and no [json], resolveRouteResponse returns true.  On such a
    sink that records its calls and has sent nothing, a result that needs a
    JSON body is answered with status calls only, the last of them the 500
    of the safety net, and no body is sent. *)
Theorem missing_json_is_absorbed (response : JsVal) (t : Trace) :
  committed t = false ->
  hasStatus response && isOk response && strictEq (http response) (JNum 204) = false ->
  (forall (W : Type) (r : @ResLike W) (result : JsVal) (w : W),
      isFunction (res_status r) = true -> isFunction (res_send r) = true ->
      res_json r = None ->
      snd (resolveRouteResponse (Some r) result w) = Normal true)
  /\ snd (resolveRouteResponse (Some recorderNoJson) response t) = Normal true
  /\ committed (fst (resolveRouteResponse (Some recorderNoJson) response t)) = false
  /\ exists evs,
       fst (resolveRouteResponse (Some recorderNoJson) response t)
       = t ++ evs ++ [EStatus (JNum 500)].
Proof.
  intros Hfresh Hjson. split.
  - intros W r result w Hs Hd _.
    rewrite resolve_returns. simpl. rewrite Hs, Hd. reflexivity.
  - rewrite (resolve_recorderNoJson response t Hfresh Hjson). cbn [fst snd].
    split; [reflexivity |]. split; [| eexists; reflexivity].
    rewrite !committed_app, Hfresh.
    destruct (hasStatus response); [| reflexivity].
    rewrite committed_app, headerEvents_uncommitted. reflexivity.
Qed.

Lemma missing_json_is_absorbed_witness :
  let response := JObj KPlain [("status", JBool true);
                               ("data", JObj KPlain [("id", JNum 1)])] in
  snd (resolveRouteResponse (Some recorderNoJson) response []) = Normal true
  /\ committed (fst (resolveRouteResponse (Some recorderNoJson) response [])) = false.
Proof.
  cbv zeta.
  destruct (missing_json_is_absorbed
              (JObj KPlain [("status", JBool true);
                            ("data", JObj KPlain [("id", JNum 1)])])
              [] eq_refl eq_refl) as [_ [Hret [Hbody _]]].
  split; assumption.
Defined.

(** ** wrapRoute and createResponder *)

Lemma nullishOr_string (v : JsVal) :
  js_String (nullishOr v (JStr "?"))
  = match v with JUndefined | JNull => "?" | _ => js_String v end.
Proof. destruct v; reflexivity. Qed.

(** C8 (as amended). The tag of the handler returned by wrapRoute is the
    configured prefix followed by the [tag] option when that is given and
    not empty, and otherwise by the method and the original URL of the
    request separated by a space, each replaced by "?" when it is missing.
    An empty prefix adds nothing. *)
Theorem effective_tag (tagPrefix : string) (tag : option string) (req : JsVal) :
  let field k :=
    match getProp req k with
    | JUndefined | JNull => "?"
    | _ => js_String (getProp req k)
    end in
  (forall s, tag = Some s -> s <> "" ->
     routeTag tagPrefix tag req = (tagPrefix ++ s)%string)
  /\ (tag = None \/ tag = Some "" ->
      routeTag tagPrefix tag req
      = (tagPrefix ++ field "method" ++ " " ++ field "originalUrl")%string).
Proof.
  intros field.
  assert (forall base,
             (if String.eqb tagPrefix "" then base else (tagPrefix ++ base)%string)
             = (tagPrefix ++ base)%string) as Hprefix.
  { intros base. destruct (String.eqb_spec tagPrefix "") as [-> | _]; reflexivity. }
  unfold routeTag. rewrite Hprefix, !nullishOr_string. split.
  - intros s -> Hs. simpl. destruct (String.eqb_spec s "") as [E | _];
      [contradiction | reflexivity].
  - intros [-> | ->]; reflexivity.
Qed.

Lemma effective_tag_witness :
  routeTag "/routes/producers " (Some "GET /achievements") JUndefined
  = "/routes/producers GET /achievements"
  /\ routeTag "[API] " None (JObj KPlain [("method", JStr "POST")]) = "[API] POST ?".
Proof.
  split.
  - apply (proj1 (effective_tag "/routes/producers " (Some "GET /achievements")
                    JUndefined) "GET /achievements" eq_refl).
    discriminate.
  - apply (proj2 (effective_tag "[API] " None (JObj KPlain [("method", JStr "POST")]))).
    left. reflexivity.
Defined.

(** C8 as stated fails: a [tag] option that is given but empty is not the
    tag; the method and URL of the request are used instead. *)
Lemma empty_tag_is_replaced :
  let req := JObj KPlain [("method", JStr "GET"); ("originalUrl", JStr "/ping")] in
  routeTag "" (Some "") req = "GET /ping"
  /\ routeTag "" (Some "") req <> ""
  /\ wrapRoute recLogger "" (fun _ _ => throw (JStr "boom"))
       {| opt_tag := Some ""; opt_logger := None |} req (Some recorder) []
     = ([ELog (JStr "boom") "GET /ping/catch";
         EStatus (JNum 500);
         EJson (JObj KPlain [("error", JStr "Unexpected error")])],
        Normal tt).
Proof. repeat split. discriminate. Qed.

Lemma committed_snoc_log (t : Trace) (payload : JsVal) (tag : string) :
  committed (t ++ [ELog payload tag]) = committed t.
Proof. rewrite committed_app. simpl. apply orb_false_r. Qed.

(** C7. When the handler given to wrapRoute throws, the returned handler
    calls the logger once, with the thrown value and the tag followed by
    "/catch", and then, on a sink that has sent nothing, sets status 500 and
    sends the JSON body [{error: m}], where [m] is the [message] of the
    thrown value or "Unexpected error" when that is falsy; the body has no
    [status] field.  On a sink that has sent something it does nothing
    more.  The returned handler completes normally. *)
Theorem wrapRoute_handler_throws
    (logger : @LoggerFn Trace) (tagPrefix : string) (handler : @Handler Trace)
    (options : @Options Trace) (req err : JsVal) (t t1 : Trace) :
  pickLogger options logger = recLogger ->
  handler req (Some recorder) t = (t1, Throw err) ->
  let body :=
    JObj KPlain [("error", if truthy (getProp err "message")
                           then getProp err "message"
                           else JStr "Unexpected error")] in
  wrapRoute logger tagPrefix handler options req (Some recorder) t
  = (t1 ++ ELog err (routeTag tagPrefix (opt_tag options) req ++ "/catch")
        :: (if committed t1 then [] else [EStatus (JNum 500); EJson body]),
     Normal tt)
  /\ hasOwn body "status" = false.
Proof.
  intros Hlog Hthrow body. split; [| reflexivity].
  unfold wrapRoute, tryCatch. unfold bind at 1. rewrite Hthrow, Hlog.
  unfold bind at 1. unfold recLogger at 1, emit at 1.
  unfold bestEffort500, bind at 1, readHeadersSent.
  change (res_headersSent recorder ?x) with (committed x).
  rewrite committed_snoc_log.
  destruct (committed t1); cbn [negb].
  - reflexivity.
  - cbv [bind callStatus callJson recorder res_status res_json emit ret].
    rewrite <- !app_assoc. reflexivity.
Qed.

Lemma wrapRoute_handler_throws_witness :
  wrapRoute recLogger "" (fun _ _ => throw (JObj KError [("message", JStr "boom")]))
    noOptions (JObj KPlain [("method", JStr "GET"); ("originalUrl", JStr "/x")])
    (Some recorder) []
  = ([ELog (JObj KError [("message", JStr "boom")]) "GET /x/catch";
      EStatus (JNum 500);
      EJson (JObj KPlain [("error", JStr "boom")])],
     Normal tt).
Proof.
  exact (proj1 (wrapRoute_handler_throws recLogger ""
                  (fun _ _ => throw (JObj KError [("message", JStr "boom")]))
                  noOptions
                  (JObj KPlain [("method", JStr "GET"); ("originalUrl", JStr "/x")])
                  (JObj KError [("message", JStr "boom")]) [] []
                  eq_refl eq_refl)).
Defined.

(** C4. resolveRouteResponse never throws, but the handler returned by
    wrapRoute and the responder returned by createResponder do.  When the
    handler (the unit of work) throws and the [json] of the sink throws in
    the 500 that follows, the error leaves the [catch] block: the promise
    of either is rejected and the responder does not resolve to true.  The
    same happens without any throwing method on a sink that has no
    [status]: the branch for a sink that failed the guard calls
    [res.status], and so does the [catch] block that receives the
    TypeError. *)
Theorem wrappers_reject_when_fallback_throws :
  let boom := JObj KError [("message", JStr "boom")] in
  let req := JObj KPlain [("method", JStr "GET"); ("originalUrl", JStr "/x")] in
  let ok := JObj KPlain [("status", JBool true); ("data", JStr "pong")] in
  let notAFunction := typeError "res.status is not a function" in
  wrapRoute noopLogger "" (fun _ _ => throw boom) noOptions req (Some failingJson) []
  = ([EStatus (JNum 500)], Throw writeFailed)
  /\ createResponder noopLogger (Some failingJson) noOptions (throw boom) []
     = ([EStatus (JNum 500)], Throw writeFailed)
  /\ snd (wrapRoute recLogger "" (fun _ _ => ret ok) noOptions req
            (Some recorderNoStatus) [])
     = Throw notAFunction
  /\ snd (createResponder recLogger (Some recorderNoStatus) noOptions (ret ok) [])
     = Throw notAFunction
  /\ (forall (W : Type) (res : @Sink W) (response : JsVal) (w : W),
        exists b, snd (resolveRouteResponse res response w) = Normal b).
Proof.
  cbv zeta. repeat (split; [reflexivity |]).
  intros W res response w. exists (capable res). apply resolve_returns.
Qed.

(** On a sink that records and never throws, with a logger that never
    throws, the responder does resolve to true, whatever the unit of work
    does. *)
Lemma bestEffort500_recorder (body : JsVal) (t : Trace) :
  snd (bestEffort500 (Some recorder) body t) = Normal tt.
Proof.
  unfold bestEffort500, bind, readHeadersSent.
  destruct (res_headersSent recorder t); reflexivity.
Qed.

Lemma createResponder_recorder (options : @Options Trace) (workFn : @WorkFn Trace)
    (t : Trace) :
  opt_logger options = None ->
  snd (createResponder recLogger (Some recorder) options workFn t) = Normal true.
Proof.
  intros Hlog. unfold createResponder, pickLogger, tryCatch. rewrite Hlog.
  unfold bind at 1.
  destruct (workFn t) as [t1 [response | error]].
  - unfold bind at 1.
    pose proof (resolve_returns (Some recorder) response t1) as Hret.
    destruct (resolveRouteResponse (Some recorder) response t1) as [t2 c].
    simpl in Hret. subst c. reflexivity.
  - unfold bind at 1. unfold recLogger at 1, emit at 1.
    unfold bind at 1.
    pose proof (bestEffort500_recorder
                  (JObj KPlain [("status", JBool false);
                                ("error", jsOr (getProp error "message")
                                            (JStr "Unexpected error"))])
                  (t1 ++ [ELog error
                            (tagOr (opt_tag options) "createResponder" ++ "/catch")]))
      as Hsent.
    destruct (bestEffort500 _ _ _) as [t2 c]. simpl in Hsent. subst c. reflexivity.
Qed.

(** ** Further properties of resolveRouteResponse *)

Lemma strictEq_bool (v : JsVal) (b : bool) : strictEq v (JBool b) = true <-> v = JBool b.
Proof.
  destruct v; simpl; split; intros H; try discriminate.
  - apply Bool.eqb_prop in H. congruence.
  - injection H as ->. apply Bool.eqb_reflx.
Qed.

Lemma hasStatus_false (response : JsVal) :
  (forall kind ps, response = JObj kind ps -> lookup "status" ps = None) ->
  hasStatus response = false.
Proof.
  intros H. destruct response as [| | | | | | | kind ps];
    unfold hasStatus; simpl; rewrite ?andb_false_r; try reflexivity.
  rewrite (H kind ps eq_refl). reflexivity.
Qed.

(** A result that is no object, or an object without an own [status], is
    answered on a sink that has sent nothing with status 500 and the
    MissingStatus body.  Its [headers] are not applied, its [http] is not
    used, and nothing of it appears in the body. *)
Theorem missing_status_answer (response : JsVal) (t : Trace) :
  (forall kind ps, response = JObj kind ps -> lookup "status" ps = None) ->
  committed t = false ->
  resolveRouteResponse (Some recorder) response t
  = (t ++ [EStatus (JNum 500);
           EJson (JObj KPlain [("error", JStr "MissingStatus");
                               ("message", JStr "Missing `status` on response object")])],
     Normal true).
Proof.
  intros Hmiss Hfresh. rewrite (resolve_recorder response t Hfresh).
  unfold recorderEvents. rewrite (hasStatus_false response Hmiss). reflexivity.
Qed.

Lemma missing_status_answer_witness :
  resolveRouteResponse (Some recorder)
    (JObj KPlain [("data", JStr "secret"); ("http", JNum 201);
                  ("headers", JObj KPlain [("X-Test", JStr "1")])]) []
  = ([EStatus (JNum 500);
      EJson (JObj KPlain [("error", JStr "MissingStatus");
                          ("message", JStr "Missing `status` on response object")])],
     Normal true).
Proof.
  apply (missing_status_answer
           (JObj KPlain [("data", JStr "secret"); ("http", JNum 201);
                         ("headers", JObj KPlain [("X-Test", JStr "1")])]) []).
  - intros kind ps E. injection E as <- <-. reflexivity.
  - reflexivity.
Defined.

(** A result whose own [status] is neither [true] nor [false] is answered
    with status 500 and the InvalidStatusField body, after its headers; a
    valid explicit [http] does not change the 500. *)
Theorem invalid_status_answer (response : JsVal) (t : Trace) :
  hasStatus response = true ->
  getProp response "status" <> JBool true ->
  getProp response "status" <> JBool false ->
  committed t = false ->
  resolveRouteResponse (Some recorder) response t
  = (t ++ headerEvents response
       ++ [EStatus (JNum 500);
           EJson (JObj KPlain [("status", JBool false);
                               ("error", JStr "InvalidStatusField");
                               ("message", JStr "`status` must be boolean")])],
     Normal true).
Proof.
  intros Hst Hnt Hnf Hfresh. rewrite (resolve_recorder response t Hfresh).
  unfold recorderEvents, commitEvents. rewrite Hst.
  assert (isOk response = false) as ->.
  { destruct (isOk response) eqn:E; [| reflexivity].
    apply strictEq_bool in E. contradiction. }
  assert (isFail response = false) as ->.
  { destruct (isFail response) eqn:E; [| reflexivity].
    apply strictEq_bool in E. contradiction. }
  reflexivity.
Qed.

Lemma invalid_status_answer_witness :
  resolveRouteResponse (Some recorder)
    (JObj KPlain [("status", JStr "true"); ("http", JNum 201);
                  ("headers", JObj KPlain [("X-Test", JStr "1")])]) []
  = ([ESetHeader "X-Test" "1"; EStatus (JNum 500);
      EJson (JObj KPlain [("status", JBool false);
                          ("error", JStr "InvalidStatusField");
                          ("message", JStr "`status` must be boolean")])],
     Normal true).
Proof.
  apply (invalid_status_answer
           (JObj KPlain [("status", JStr "true"); ("http", JNum 201);
                         ("headers", JObj KPlain [("X-Test", JStr "1")])]) []);
    [reflexivity | discriminate | discriminate | reflexivity].
Defined.

(** A success with a valid explicit code: 204 is sent with [send()] and no
    body, whatever [data] holds; every other code is sent with
    [json(data)], also when [data] is undefined. *)
Theorem success_with_explicit_code (response : JsVal) (h : Z) (t : Trace) :
  hasStatus response = true ->
  getProp response "status" = JBool true ->
  getProp response "http" = JNum h -> (100 <= h <= 599)%Z ->
  committed t = false ->
  resolveRouteResponse (Some recorder) response t
  = (t ++ headerEvents response
       ++ [EStatus (JNum h);
           if (h =? 204)%Z then ESend None else EJson (getProp response "data")],
     Normal true).
Proof.
  intros Hst Hs Hh Hr Hfresh. rewrite (resolve_recorder response t Hfresh).
  unfold recorderEvents, commitEvents. rewrite Hst.
  destruct (status_bool _ _ Hs) as [-> _].
  destruct (explicit_valid _ _ Hh Hr) as [_ ->]. simpl.
  destruct (h =? 204)%Z; reflexivity.
Qed.

Lemma success_with_explicit_code_witness :
  resolveRouteResponse (Some recorder)
    (JObj KPlain [("status", JBool true); ("data", JObj KPlain [("id", JNum 1)]);
                  ("http", JNum 204)]) []
  = ([EStatus (JNum 204); ESend None], Normal true)
  /\ resolveRouteResponse (Some recorder)
       (JObj KPlain [("status", JBool true); ("http", JNum 201)]) []
     = ([EStatus (JNum 201); EJson JUndefined], Normal true).
Proof.
  split.
  - apply (success_with_explicit_code
             (JObj KPlain [("status", JBool true);
                           ("data", JObj KPlain [("id", JNum 1)]);
                           ("http", JNum 204)]) 204 []);
      try reflexivity. lia.
  - apply (success_with_explicit_code
             (JObj KPlain [("status", JBool true); ("http", JNum 201)]) 201 []);
      try reflexivity. lia.
Defined.

(** A failure whose [data] is an object, not an Error, with neither a
    truthy [error] nor a truthy [message] is answered with the empty object:
    whatever else [data] holds is lost. *)
Theorem failure_without_error_fields
    (response : JsVal) (kind : ObjKind) (ps : Props) (t : Trace) :
  hasStatus response = true ->
  getProp response "status" = JBool false ->
  getProp response "data" = JObj kind ps -> kind <> KError ->
  truthy (getProp (JObj kind ps) "error") = false ->
  truthy (getProp (JObj kind ps) "message") = false ->
  committed t = false ->
  resolveRouteResponse (Some recorder) response t
  = (t ++ headerEvents response ++ [EStatus (http response); EJson (JObj KPlain [])],
     Normal true).
Proof.
  intros Hst Hs Hd Hk He Hm Hfresh. rewrite (resolve_recorder response t Hfresh).
  unfold recorderEvents, commitEvents. rewrite Hst.
  destruct (status_bool _ _ Hs) as [-> ->]. cbn [negb].
  rewrite Hd. unfold errBody, spreadIf. rewrite He, Hm.
  destruct kind; [reflexivity | reflexivity | contradiction].
Qed.

Lemma failure_without_error_fields_witness :
  resolveRouteResponse (Some recorder)
    (JObj KPlain [("status", JBool false);
                  ("data", JObj KPlain [("code", JNum 42); ("reason", JStr "quota")])]) []
  = ([EStatus (JNum 400); EJson (JObj KPlain [])], Normal true).
Proof.
  apply (failure_without_error_fields
           (JObj KPlain [("status", JBool false);
                         ("data", JObj KPlain [("code", JNum 42);
                                               ("reason", JStr "quota")])])
           KPlain [("code", JNum 42); ("reason", JStr "quota")] []);
    try reflexivity.
  discriminate.
Defined.

Lemma http_in_range (response : JsVal) :
  exists z, http response = JNum z /\ (100 <= z <= 599)%Z.
Proof.
  unfold http. destruct (explicit response) eqn:He.
  - unfold explicit in He.
    destruct (getProp response "http") as [| | | z | | | |]; try discriminate.
    simpl in He. apply andb_prop in He as [Hge Hle].
    apply Z.leb_le in Hge. apply Z.leb_le in Hle.
    exists z. split; [reflexivity | lia].
  - destruct (isOk response); [destruct (noData response) |];
      eexists; (split; [reflexivity | lia]).
Qed.

Lemma headerEvents_headers (response : JsVal) (e : Event) :
  In e (headerEvents response) -> isHeader e = true.
Proof.
  unfold headerEvents.
  destruct (truthy (getProp response "headers")
            && String.eqb (typeof (getProp response "headers")) "object");
    [| intros []].
  intros Hin. apply in_map_iff in Hin as [kv [<- _]]. reflexivity.
Qed.

(** Every status code that resolveRouteResponse sets is an integer between
    100 and 599, whatever the result holds. *)
Theorem status_code_in_range (response : JsVal) (t : Trace) :
  committed t = false ->
  exists evs,
    resolveRouteResponse (Some recorder) response t = (t ++ evs, Normal true)
    /\ forall code, In (EStatus code) evs ->
         exists z, code = JNum z /\ (100 <= z <= 599)%Z.
Proof.
  intros Hfresh. exists (recorderEvents response).
  split; [apply resolve_recorder, Hfresh |].
  intros code Hin. unfold recorderEvents in Hin.
  destruct (http_in_range response) as [z [Hz Hr]].
  assert (forall c, c = http response \/ c = JNum 500 ->
                    exists z', c = JNum z' /\ (100 <= z' <= 599)%Z) as Hok.
  { intros c [-> | ->]; [exists z; split; assumption |].
    exists 500%Z. split; [reflexivity | lia]. }
  destruct (hasStatus response).
  - apply in_app_or in Hin as [Hin | Hin].
    + apply headerEvents_headers in Hin. discriminate Hin.
    + unfold commitEvents in Hin.
      destruct (isOk response); [destruct (strictEq (http response) (JNum 204)) |
                                 destruct (isFail response)];
        simpl in Hin; destruct Hin as [E | [E | []]]; try discriminate E;
        injection E as <-; apply Hok; auto.
  - simpl in Hin. destruct Hin as [E | [E | []]]; try discriminate E.
    injection E as <-. apply Hok. auto.
Qed.

Lemma status_code_in_range_witness :
  exists evs,
    resolveRouteResponse (Some recorder)
      (JObj KPlain [("status", JBool true); ("http", JNum 1000)]) []
    = ([] ++ evs, Normal true)
    /\ forall code, In (EStatus code) evs ->
         exists z, code = JNum z /\ (100 <= z <= 599)%Z.
Proof.
  exact (status_code_in_range
           (JObj KPlain [("status", JBool true); ("http", JNum 1000)]) [] eq_refl).
Defined.

Lemma commits_app (t1 t2 : Trace) : commits (t1 ++ t2) = commits t1 + commits t2.
Proof. unfold commits. rewrite filter_app. apply length_app. Qed.

Lemma committed_commits (t : Trace) : committed t = false <-> commits t = 0.
Proof.
  unfold committed, commits. induction t as [| e tl IH]; simpl.
  - tauto.
  - destruct (isCommit e); simpl; [split; discriminate | exact IH].
Qed.

Lemma headerEvents_commits (response : JsVal) : commits (headerEvents response) = 0.
Proof. apply committed_commits, headerEvents_uncommitted. Qed.

(** On a sink that works and has sent nothing, resolveRouteResponse sends
    exactly one body, whatever the result; the sink then counts as
    committed, and a further call with any result changes nothing. *)
Theorem exactly_one_body (response again : JsVal) (t : Trace) :
  committed t = false ->
  exists evs,
    resolveRouteResponse (Some recorder) response t = (t ++ evs, Normal true)
    /\ commits evs = 1
    /\ resolveRouteResponse (Some recorder) again (t ++ evs) = (t ++ evs, Normal true).
Proof.
  intros Hfresh. exists (recorderEvents response).
  split; [apply resolve_recorder, Hfresh |].
  assert (commits (recorderEvents response) = 1) as Hone.
  { unfold recorderEvents. destruct (hasStatus response); [| reflexivity].
    rewrite commits_app, headerEvents_commits.
    destruct (commitEvents_commit response) as [ev [Hev ->]].
    unfold commits. simpl. rewrite Hev. reflexivity. }
  split; [exact Hone |].
  apply resolve_committed; [reflexivity |].
  change (committed (t ++ recorderEvents response) = true).
  destruct (committed (t ++ recorderEvents response)) eqn:E; [reflexivity |].
  apply committed_commits in E. rewrite commits_app in E. lia.
Qed.

Lemma exactly_one_body_witness :
  exists evs,
    resolveRouteResponse (Some recorder)
      (JObj KPlain [("status", JBool true); ("data", JStr "pong")]) [] = ([] ++ evs, Normal true)
    /\ commits evs = 1
    /\ resolveRouteResponse (Some recorder)
         (JObj KPlain [("status", JBool false)]) ([] ++ evs) = ([] ++ evs, Normal true).
Proof.
  exact (exactly_one_body
           (JObj KPlain [("status", JBool true); ("data", JStr "pong")])
           (JObj KPlain [("status", JBool false)]) [] eq_refl).
Defined.

(** ** Sinks that fail *)

Section FlakyFacts.

Variable err : JsVal.
Variables before after : Event -> bool.

Let sink : @ResLike Trace := flaky err before after.
Let kept (e : Event) : bool := negb (before e).

Lemma forEntries_flaky (es : Props) (t : Trace) :
  forEntries sink es t
  = (t ++ filter kept (map (fun kv => ESetHeader (fst kv) (js_String (snd kv))) es),
     Normal tt).
Proof.
  revert t. induction es as [| [k v] tl IH]; intros t.
  - simpl. unfold ret. rewrite app_nil_r. reflexivity.
  - simpl. unfold bind, setHeaderQuietly. simpl.
    unfold tryCatch, flakyCall, kept.
    destruct (before (ESetHeader k (js_String v))); simpl.
    + rewrite IH. reflexivity.
    + destruct (after (ESetHeader k (js_String v)));
        unfold ret; rewrite IH, <- app_assoc; reflexivity.
Qed.

Lemma applyHeaders_flaky (response : JsVal) (t : Trace) :
  applyHeaders sink response t = (t ++ filter kept (headerEvents response), Normal tt).
Proof.
  unfold applyHeaders, headerEvents.
  destruct (truthy (getProp response "headers")
            && String.eqb (typeof (getProp response "headers")) "object").
  - apply forEntries_flaky.
  - unfold ret. simpl. rewrite app_nil_r. reflexivity.
Qed.

Lemma filter_commits_zero (f : Event -> bool) (l : Trace) :
  commits l = 0 -> commits (filter f l) = 0.
Proof.
  unfold commits. induction l as [| e tl IH]; [reflexivity |].
  simpl. destruct (isCommit e) eqn:Ec; simpl; [discriminate |].
  intros H. destruct (f e); simpl; rewrite ?Ec; auto.
Qed.

Lemma resolveCatch_flaky (error : JsVal) (t : Trace) :
  snd (resolveCatch (Some sink) error t) = Normal true
  /\ exists evs, fst (resolveCatch (Some sink) error t) = t ++ evs
                 /\ commits evs <= 1
                 /\ (committed t = true -> evs = []).
Proof.
  split; [apply resolveCatch_true |].
  unfold resolveCatch, tryCatch, bind, readHeadersSent.
  change (res_headersSent sink t) with (committed t).
  destruct (committed t); cbn [negb].
  - exists []. rewrite app_nil_r. repeat split. unfold commits. simpl. lia.
  - cbv [callStatus callJson sink flaky res_status res_json flakyCall ret].
    destruct (before (EStatus (JNum 500))); [| destruct (after (EStatus (JNum 500)))];
      [| | destruct (before (EJson (unhandledBody error)));
           [| destruct (after (EJson (unhandledBody error)))]];
      cbn [fst]; rewrite <- ?app_assoc;
      first [ exists []; rewrite app_nil_r; repeat split;
              first [unfold commits; simpl; lia | discriminate]
            | eexists; repeat split; [unfold commits; simpl; lia | discriminate] ].
Qed.

Ltac flaky_cases :=
  repeat match goal with
         | |- context [before ?e] => destruct (before e)
         | |- context [after ?e] => destruct (after e)
         end.

Lemma resolveTry_flaky (response : JsVal) (t : Trace) :
  committed t = false ->
  exists evs c,
    resolveTry (Some sink) response t = (t ++ evs, c)
    /\ commits evs <= 1
    /\ (c = Normal true \/ exists e, c = Throw e).
Proof.
  intros Hfresh. unfold resolveTry.
  cbn [sink flaky res_status res_send isFunction negb orb].
  unfold bind at 1. unfold readHeadersSent.
  change (res_headersSent _ t) with (committed t). rewrite Hfresh.
  destruct (hasStatus response); cbn [negb].
  - unfold bind at 1. fold sink. rewrite applyHeaders_flaky.
    assert (commits (filter kept (headerEvents response)) = 0) as Hhs
        by apply filter_commits_zero, headerEvents_commits.
    destruct (isOk response); [destruct (strictEq (http response) (JNum 204)) |
                               destruct (isFail response)];
      cbv [bind callStatus callSend callJson sink flaky
           res_status res_json res_send flakyCall ret];
      flaky_cases; rewrite <- ?app_assoc;
      (eexists; eexists; split; [reflexivity |]);
      (split; [rewrite ?commits_app, ?Hhs; unfold commits; simpl; lia
              | first [left; reflexivity | right; eexists; reflexivity]]).
  - cbv [bind callStatus callJson sink flaky res_status res_json flakyCall ret].
    flaky_cases; rewrite <- ?app_assoc;
      first [ exists []; eexists; rewrite app_nil_r; split; [reflexivity |]
            | eexists; eexists; split; [reflexivity |] ];
      (split; [unfold commits; simpl; lia
              | first [left; reflexivity | right; eexists; reflexivity]]).
Qed.

End FlakyFacts.

(** Whatever calls of a recording sink fail, and whether they fail before
    or after taking effect, resolveRouteResponse sends at most one body on
    a sink that has sent nothing, and returns true. *)
Theorem at_most_one_body
    (err : JsVal) (before after : Event -> bool) (response : JsVal) (t : Trace) :
  committed t = false ->
  exists evs,
    resolveRouteResponse (Some (flaky err before after)) response t
    = (t ++ evs, Normal true)
    /\ commits evs <= 1.
Proof.
  intros Hfresh. unfold resolveRouteResponse, tryCatch.
  destruct (resolveTry_flaky err before after response t Hfresh)
    as [evs [c [-> [Hone [-> | [e ->]]]]]].
  - exists evs. split; [reflexivity | exact Hone].
  - destruct (resolveCatch_flaky err before after e (t ++ evs))
      as [Hret [evs2 [Hfst [Hone2 Hnone]]]].
    destruct (resolveCatch (Some (flaky err before after)) e (t ++ evs)) as [t2 c2].
    simpl in Hret, Hfst. subst c2 t2.
    exists (evs ++ evs2). rewrite app_assoc. split; [reflexivity |].
    rewrite commits_app.
    destruct (committed (t ++ evs)) eqn:Ec.
    + rewrite (Hnone eq_refl). unfold commits at 2. simpl. lia.
    + apply committed_commits in Ec. rewrite commits_app in Ec. lia.
Qed.

Lemma at_most_one_body_witness :
  exists evs,
    resolveRouteResponse
      (Some (flaky writeFailed (fun _ => false) isCommit))
      (JObj KPlain [("status", JBool true); ("data", JStr "pong")]) []
    = ([] ++ evs, Normal true)
    /\ commits evs <= 1.
Proof.
  exact (at_most_one_body writeFailed (fun _ => false) isCommit
           (JObj KPlain [("status", JBool true); ("data", JStr "pong")]) [] eq_refl).
Defined.

(** Only header calls fail: the sink then receives what a sink that works
    receives, but for the header calls it refused; every other header is
    still set, in order, and the response is sent as usual. *)
Theorem header_failures_are_skipped
    (err : JsVal) (before after : Event -> bool)
    (response : JsVal) (t evs : Trace) :
  committed t = false ->
  (forall e, isHeader e = false -> before e = false /\ after e = false) ->
  resolveRouteResponse (Some recorder) response t = (t ++ evs, Normal true) ->
  resolveRouteResponse (Some (flaky err before after)) response t
  = (t ++ filter (fun e => negb (before e)) evs, Normal true).
Proof.
  intros Hfresh Honly Hrec.
  rewrite (resolve_recorder response t Hfresh) in Hrec.
  injection Hrec as Hrec. apply app_inv_head in Hrec. subst evs.
  assert (forall c, before (EStatus c) = false) as Hbs by (intros; apply Honly; reflexivity).
  assert (forall c, after (EStatus c) = false) as Has by (intros; apply Honly; reflexivity).
  assert (forall b, before (EJson b) = false) as Hbj by (intros; apply Honly; reflexivity).
  assert (forall b, after (EJson b) = false) as Haj by (intros; apply Honly; reflexivity).
  assert (forall b, before (ESend b) = false) as Hbd by (intros; apply Honly; reflexivity).
  assert (forall b, after (ESend b) = false) as Had by (intros; apply Honly; reflexivity).
  unfold resolveRouteResponse, tryCatch, resolveTry, recorderEvents, commitEvents.
  cbn [flaky res_status res_send isFunction negb orb].
  unfold bind at 1. unfold readHeadersSent.
  change (res_headersSent _ t) with (committed t). rewrite Hfresh.
  destruct (hasStatus response); cbn [negb].
  - unfold bind at 1. rewrite applyHeaders_flaky, filter_app.
    destruct (isOk response); [destruct (strictEq (http response) (JNum 204)) |
                               destruct (isFail response)];
      cbv [bind callStatus callSend callJson flaky
           res_status res_json res_send flakyCall ret];
      cbn [filter];
      rewrite ?Hbs, ?Has, ?Hbj, ?Haj, ?Hbd, ?Had; cbn [negb];
      rewrite <- ?app_assoc; reflexivity.
  - cbv [bind callStatus callJson flaky res_status res_json flakyCall ret].
    cbn [filter]. rewrite ?Hbs, ?Has, ?Hbj, ?Haj; cbn [negb].
    rewrite <- ?app_assoc. reflexivity.
Qed.

Lemma header_failures_are_skipped_witness :
  let refused e := match e with ESetHeader k _ => String.eqb k "Bad Name" | _ => false end in
  resolveRouteResponse (Some (flaky writeFailed refused (fun _ => false)))
    (JObj KPlain [("status", JBool true); ("data", JStr "pong");
                  ("headers", JObj KPlain [("X-A", JStr "1"); ("Bad Name", JStr "2");
                                           ("X-B", JNum 3)])]) []
  = ([ESetHeader "X-A" "1"; ESetHeader "X-B" "3";
      EStatus (JNum 200); EJson (JStr "pong")],
     Normal true).
Proof.
  cbv zeta.
  apply (header_failures_are_skipped writeFailed
           (fun e => match e with ESetHeader k _ => String.eqb k "Bad Name" | _ => false end)
           (fun _ => false)
           (JObj KPlain [("status", JBool true); ("data", JStr "pong");
                         ("headers", JObj KPlain [("X-A", JStr "1");
                                                  ("Bad Name", JStr "2");
                                                  ("X-B", JNum 3)])])
           []
           [ESetHeader "X-A" "1"; ESetHeader "Bad Name" "2"; ESetHeader "X-B" "3";
            EStatus (JNum 200); EJson (JStr "pong")]).
  - reflexivity.
  - intros e He. destruct e; try discriminate He; split; reflexivity.
  - reflexivity.
Defined.

(** The safety net: when the sink refuses the body of a success and
    nothing has been sent, resolveRouteResponse sets status 500 and sends
    the UnhandledResponderError body, whose message is the [message] of the
    error the sink threw, or "Unexpected error" when that is falsy; it
    returns true. *)
Theorem safety_net_answer
    (err : JsVal) (before : Event -> bool) (response : JsVal) (t : Trace) :
  let fallback :=
    JObj KPlain [("status", JBool false);
                 ("error", JStr "UnhandledResponderError");
                 ("message", if truthy (getProp err "message")
                             then getProp err "message"
                             else JStr "Unexpected error")] in
  committed t = false ->
  hasStatus response = true -> getProp response "status" = JBool true ->
  strictEq (http response) (JNum 204) = false ->
  (forall code, before (EStatus code) = false) ->
  before (EJson (getProp response "data")) = true ->
  before (EJson fallback) = false ->
  resolveRouteResponse (Some (flaky err before (fun _ => false))) response t
  = (t ++ filter (fun e => negb (before e)) (headerEvents response)
       ++ [EStatus (http response); EStatus (JNum 500); EJson fallback],
     Normal true).
Proof.
  intros fallback Hfresh Hst Hs Hcode Hbs Hdata Hfall.
  unfold resolveRouteResponse, tryCatch, resolveTry.
  cbn [flaky res_status res_send isFunction negb orb].
  unfold bind at 1. unfold readHeadersSent.
  change (res_headersSent _ t) with (committed t). rewrite Hfresh, Hst. cbn [negb].
  unfold bind at 1. rewrite applyHeaders_flaky.
  destruct (status_bool _ _ Hs) as [-> _]. rewrite Hcode.
  cbv [bind callStatus callJson flaky res_status res_json flakyCall ret].
  rewrite Hbs, Hdata.
  unfold resolveCatch, tryCatch. unfold bind at 1. unfold readHeadersSent.
  change (res_headersSent _ ?x) with (committed x).
  assert (committed ((t ++ filter (fun e => negb (before e)) (headerEvents response))
                     ++ [EStatus (http response)]) = false) as ->.
  { apply committed_commits. rewrite !commits_app.
    rewrite (filter_commits_zero _ _ (headerEvents_commits response)).
    apply committed_commits in Hfresh. rewrite Hfresh. reflexivity. }
  cbn [negb].
  cbv [bind callStatus callJson flaky res_status res_json flakyCall ret].
  change (unhandledBody err) with fallback.
  rewrite Hbs, Hfall, <- !app_assoc. reflexivity.
Qed.

Lemma safety_net_answer_witness :
  let unserialisable e :=
    match e with EJson (JFun _) => true | _ => false end in
  resolveRouteResponse
    (Some (flaky (JObj KError [("message", JStr "cannot serialise")])
                 unserialisable (fun _ => false)))
    (JObj KPlain [("status", JBool true); ("data", JFun "() => 1")]) []
  = ([EStatus (JNum 200); EStatus (JNum 500);
      EJson (JObj KPlain [("status", JBool false);
                          ("error", JStr "UnhandledResponderError");
                          ("message", JStr "cannot serialise")])],
     Normal true).
Proof.
  cbv zeta.
  apply (safety_net_answer
           (JObj KError [("message", JStr "cannot serialise")])
           (fun e => match e with EJson (JFun _) => true | _ => false end)
           (JObj KPlain [("status", JBool true); ("data", JFun "() => 1")]) []);
    reflexivity.
Defined.

(** ** Headers that cannot be applied *)

Lemma lookup_dropKey_same (k : string) (ps : Props) : lookup k (dropKey k ps) = None.
Proof.
  induction ps as [| [k' v] tl IH]; [reflexivity |].
  simpl. destruct (String.eqb_spec k' k) as [-> | Hne]; simpl; [exact IH |].
  destruct (String.eqb_spec k' k) as [E | _]; [contradiction | exact IH].
Qed.

Section HeadersIgnored.

Context {W : Type}.
Variable r : @ResLike W.

Lemma forEntries_no_setHeader (es : Props) (w : W) :
  res_setHeader r = None -> forEntries r es w = (w, Normal tt).
Proof.
  intros Hnone. induction es as [| [k v] tl IH]; [reflexivity |].
  simpl. unfold bind, setHeaderQuietly. rewrite Hnone. exact IH.
Qed.

Lemma bind_ext_k {A B : Type} (c : Eff W A) (k1 k2 : A -> Eff W B) (w : W) :
  (forall a w', k1 a w' = k2 a w') -> bind c k1 w = bind c k2 w.
Proof.
  intros Hk. unfold bind. destruct (c w) as [w' [a | e]]; [apply Hk | reflexivity].
Qed.

Lemma bind_skip {B : Type} (c : Eff W unit) (k : unit -> Eff W B) (w : W) :
  c w = (w, Normal tt) -> bind c k w = k tt w.
Proof. intros H. unfold bind. rewrite H. reflexivity. Qed.

(** On a sink without [setHeader], and for a [headers] field that is no
    object, the result is answered as if it had no [headers] field: no
    header call is made and nothing fails. *)
Theorem headers_ignored (kind : ObjKind) (ps : Props) (w : W) :
  res_setHeader r = None
  \/ (forall k hs, getProp (JObj kind ps) "headers" <> JObj k hs) ->
  resolveRouteResponse (Some r) (JObj kind ps) w
  = resolveRouteResponse (Some r) (JObj kind (dropKey "headers" ps)) w.
Proof.
  intros Hwhy.
  assert (forall w', applyHeaders r (JObj kind ps) w' = (w', Normal tt)) as Hleft.
  { intros w'. unfold applyHeaders. destruct Hwhy as [Hnone | Hprim].
    - destruct (truthy _ && _); [| reflexivity].
      apply forEntries_no_setHeader, Hnone.
    - destruct (getProp (JObj kind ps) "headers") as [| | | | | | | k hs] eqn:E;
        simpl; rewrite ?andb_false_r; try reflexivity.
      destruct (Hprim k hs eq_refl). }
  assert (forall w', applyHeaders r (JObj kind (dropKey "headers" ps)) w'
                     = (w', Normal tt)) as Hright.
  { intros w'. unfold applyHeaders. simpl.
    rewrite lookup_dropKey_same. destruct kind; reflexivity. }
  unfold resolveRouteResponse, tryCatch.
  enough (resolveTry (Some r) (JObj kind ps) w
          = resolveTry (Some r) (JObj kind (dropKey "headers" ps)) w) as ->
      by reflexivity.
  unfold resolveTry, http, explicit, noData, hasStatus, isOk, isFail.
  rewrite (hasOwn_dropKey kind "status" "headers") by other_key.
  rewrite !(getProp_dropKey kind "status" "headers") by other_key.
  rewrite !(getProp_dropKey kind "http" "headers") by other_key.
  rewrite !(getProp_dropKey kind "data" "headers") by other_key.
  destruct (negb (isFunction (res_status r)) || negb (isFunction (res_send r)));
    [reflexivity |].
  apply bind_ext_k. intros sent w'.
  destruct sent; [reflexivity |].
  destruct (negb _); [reflexivity |].
  rewrite (bind_skip _ _ _ (Hleft w')), (bind_skip _ _ _ (Hright w')). reflexivity.
Qed.

End HeadersIgnored.

Lemma headers_ignored_witness :
  resolveRouteResponse (Some recorder)
    (JObj KPlain [("status", JBool true); ("headers", JStr "X-Test: 1")]) []
  = resolveRouteResponse (Some recorder) (JObj KPlain [("status", JBool true)]) [].
Proof.
  apply (headers_ignored recorder KPlain
           [("status", JBool true); ("headers", JStr "X-Test: 1")] []).
  right. intros k hs E. discriminate E.
Defined.

(** ** Further properties of wrapRoute and createResponder *)

Section WrapperFacts.

Context {W : Type}.

Lemma resolve_capable (res : @Sink W) (response : JsVal) (w : W) :
  capable res = true ->
  resolveRouteResponse res response w
  = (fst (resolveRouteResponse res response w), Normal true).
Proof.
  intros Hcap. pose proof (resolve_returns res response w) as Hres.
  rewrite Hcap in Hres.
  destruct (resolveRouteResponse res response w) as [w' c].
  simpl in Hres. subst c. reflexivity.
Qed.

(** When the handler returns and the sink passes the guard, the handler
    returned by wrapRoute does what resolveRouteResponse does with the
    returned value and nothing else: the logger is not called, and the
    returned handler completes normally, whatever the sink does. *)
Theorem wrapRoute_answers_like_resolve
    (logger : @LoggerFn W) (tagPrefix : string) (handler : @Handler W)
    (options : @Options W) (req response : JsVal) (res : @Sink W) (w w1 : W) :
  capable res = true ->
  handler req res w = (w1, Normal response) ->
  wrapRoute logger tagPrefix handler options req res w
  = (fst (resolveRouteResponse res response w1), Normal tt).
Proof.
  intros Hcap Hret. unfold wrapRoute, tryCatch. unfold bind at 1. rewrite Hret.
  unfold bind at 1. rewrite (resolve_capable res response w1 Hcap). reflexivity.
Qed.

(** The same for the responder returned by createResponder, which resolves
    to true. *)
Theorem createResponder_answers_like_resolve
    (logger : @LoggerFn W) (options : @Options W) (workFn : @WorkFn W)
    (response : JsVal) (res : @Sink W) (w w1 : W) :
  capable res = true ->
  workFn w = (w1, Normal response) ->
  createResponder logger res options workFn w
  = (fst (resolveRouteResponse res response w1), Normal true).
Proof.
  intros Hcap Hret. unfold createResponder, tryCatch. unfold bind at 1. rewrite Hret.
  unfold bind at 1. rewrite (resolve_capable res response w1 Hcap). reflexivity.
Qed.


(** Silent by default: with no logger given to makeRouteUtils nor to
    wrapRoute, a throwing handler leads to the 500 on the sink and to
    nothing else. *)
Theorem silent_by_default
    (tagPrefix tag : option string) (handler : @Handler W)
    (req err : JsVal) (r : @ResLike W) (w w1 : W) :
  handler req (Some r) w = (w1, Throw err) ->
  ru_wrapRoute (makeRouteUtils None tagPrefix) handler
    {| opt_tag := tag; opt_logger := None |} req (Some r) w
  = if res_headersSent r w1 then (w1, Normal tt)
    else (callStatus (Some r) (JNum 500) ;;
          callJson (Some r)
            (JObj KPlain [("error", if truthy (getProp err "message")
                                    then getProp err "message"
                                    else JStr "Unexpected error")])) w1.
Proof.
  intros Hthrow. simpl. unfold wrapRoute, tryCatch. unfold bind at 1.
  rewrite Hthrow. unfold pickLogger. cbn [opt_logger opt_tag].
  unfold bind at 1. unfold noopLogger, ret.
  unfold bestEffort500. unfold bind at 1. unfold readHeadersSent.
  destruct (res_headersSent r w1); reflexivity.
Qed.

End WrapperFacts.

Lemma wrapRoute_answers_like_resolve_witness :
  wrapRoute recLogger "" (fun _ _ => ret (JObj KPlain [("status", JBool true);
                                                       ("data", JStr "pong")]))
    noOptions JUndefined (Some recorder) []
  = ([EStatus (JNum 200); EJson (JStr "pong")], Normal tt).
Proof.
  exact (wrapRoute_answers_like_resolve recLogger ""
           (fun _ _ => ret (JObj KPlain [("status", JBool true); ("data", JStr "pong")]))
           noOptions JUndefined
           (JObj KPlain [("status", JBool true); ("data", JStr "pong")])
           (Some recorder) [] [] eq_refl eq_refl).
Defined.

Lemma createResponder_answers_like_resolve_witness :
  createResponder recLogger (Some recorder) noOptions
    (ret (JObj KPlain [("status", JBool false); ("data", JStr "oops")])) []
  = ([EStatus (JNum 400);
      EJson (JObj KPlain [("error", JStr "RequestFailed"); ("message", JStr "oops")])],
     Normal true).
Proof.
  exact (createResponder_answers_like_resolve recLogger noOptions
           (ret (JObj KPlain [("status", JBool false); ("data", JStr "oops")]))
           (JObj KPlain [("status", JBool false); ("data", JStr "oops")])
           (Some recorder) [] [] eq_refl eq_refl).
Defined.


Lemma silent_by_default_witness :
  ru_wrapRoute (makeRouteUtils None None) (fun _ _ => throw (JStr "boom"))
    noOptions JUndefined (Some recorder) []
  = ([EStatus (JNum 500); EJson (JObj KPlain [("error", JStr "Unexpected error")])],
     Normal tt).
Proof.
  exact (silent_by_default None None (fun _ _ => throw (JStr "boom"))
           JUndefined (JStr "boom") recorder [] [] eq_refl).
Defined.

(** ** A sink that fails the guard *)

Lemma resolve_noSend (response : JsVal) (t : Trace) :
  resolveRouteResponse (Some recorderNoSend) response t = (t, Normal false).
Proof. apply resolve_incapable. reflexivity. Qed.

(** A sink without [send] fails the guard although its [status] and [json]
    work.  The handler returned by wrapRoute then never sends what its
    handler returned: it logs the whole returned value, with the tag as
    [route], under the tag, through the logger of the options when there is
    one, and, when nothing has been sent, answers 500 with
    [{error: "UnexpectedResponseShape"}]. *)
Theorem wrapRoute_unexpected_shape
    (logger : @LoggerFn Trace) (tagPrefix : string) (handler : @Handler Trace)
    (tag : option string) (req response : JsVal) (t t1 : Trace) :
  handler req (Some recorderNoSend) t = (t1, Normal response) ->
  let route := routeTag tagPrefix tag req in
  wrapRoute logger tagPrefix handler {| opt_tag := tag; opt_logger := Some recLogger |}
    req (Some recorderNoSend) t
  = (t1 ++ ELog (JObj KPlain [("message", JStr "Unexpected response shape");
                              ("response", response);
                              ("route", JStr route)]) route
        :: (if committed t1 then []
            else [EStatus (JNum 500);
                  EJson (JObj KPlain [("error", JStr "UnexpectedResponseShape")])]),
     Normal tt).
Proof.
  intros Hret route. unfold wrapRoute, tryCatch. unfold bind at 1. rewrite Hret.
  unfold bind at 1. rewrite resolve_noSend.
  unfold pickLogger. cbn [opt_logger opt_tag]. fold route.
  unfold bind at 1. unfold recLogger at 1, emit at 1.
  unfold bestEffort500, bind at 1, readHeadersSent.
  change (res_headersSent recorderNoSend ?x) with (committed x).
  rewrite committed_snoc_log.
  destruct (committed t1); cbn [negb].
  - reflexivity.
  - cbv [bind callStatus callJson recorderNoSend recorder res_status res_json emit ret].
    rewrite <- !app_assoc. reflexivity.
Qed.

Lemma wrapRoute_unexpected_shape_witness :
  wrapRoute noopLogger "api " (fun _ _ => ret (JObj KPlain [("status", JBool true)]))
    {| opt_tag := None; opt_logger := Some recLogger |}
    (JObj KPlain [("method", JStr "GET")]) (Some recorderNoSend) []
  = ([ELog (JObj KPlain [("message", JStr "Unexpected response shape");
                         ("response", JObj KPlain [("status", JBool true)]);
                         ("route", JStr "api GET ?")]) "api GET ?";
      EStatus (JNum 500);
      EJson (JObj KPlain [("error", JStr "UnexpectedResponseShape")])],
     Normal tt).
Proof.
  exact (wrapRoute_unexpected_shape noopLogger "api "
           (fun _ _ => ret (JObj KPlain [("status", JBool true)]))
           None (JObj KPlain [("method", JStr "GET")])
           (JObj KPlain [("status", JBool true)]) [] [] eq_refl).
Defined.

(** The responder returned by createResponder does the same on such a sink,
    with a body that holds [status: false] and a payload without [route];
    its tag is the [tag] option, or "createResponder" when that is missing
    or empty, and never carries the prefix given to makeRouteUtils.  It
    resolves to true. *)
Theorem createResponder_unexpected_shape
    (tagPrefix tag : option string) (workFn : @WorkFn Trace)
    (response : JsVal) (t t1 : Trace) :
  workFn t = (t1, Normal response) ->
  let base :=
    match tag with
    | Some s => if String.eqb s "" then "createResponder" else s
    | None => "createResponder"
    end in
  ru_createResponder (makeRouteUtils (Some recLogger) tagPrefix)
    (Some recorderNoSend) {| opt_tag := tag; opt_logger := None |} workFn t
  = (t1 ++ ELog (JObj KPlain [("message", JStr "Unexpected response shape");
                              ("response", response)]) base
        :: (if committed t1 then []
            else [EStatus (JNum 500);
                  EJson (JObj KPlain [("status", JBool false);
                                      ("error", JStr "UnexpectedResponseShape")])]),
     Normal true).
Proof.
  intros Hret base. cbn [makeRouteUtils ru_createResponder].
  unfold createResponder, tryCatch. unfold bind at 1. rewrite Hret.
  unfold bind at 1. rewrite resolve_noSend.
  unfold pickLogger. cbn [opt_logger opt_tag].
  change (tagOr tag "createResponder") with base.
  unfold bind at 1. unfold recLogger at 1, emit at 1.
  unfold bind at 1. unfold bestEffort500, bind at 1, readHeadersSent.
  change (res_headersSent recorderNoSend ?x) with (committed x).
  rewrite committed_snoc_log.
  destruct (committed t1); cbn [negb].
  - reflexivity.
  - cbv [bind callStatus callJson recorderNoSend recorder res_status res_json emit ret].
    rewrite <- !app_assoc. reflexivity.
Qed.

Lemma createResponder_unexpected_shape_witness :
  ru_createResponder (makeRouteUtils (Some recLogger) (Some "api "))
    (Some recorderNoSend) noOptions (ret (JObj KPlain [("status", JBool true)])) []
  = ([ELog (JObj KPlain [("message", JStr "Unexpected response shape");
                         ("response", JObj KPlain [("status", JBool true)])])
        "createResponder";
      EStatus (JNum 500);
      EJson (JObj KPlain [("status", JBool false);
                          ("error", JStr "UnexpectedResponseShape")])],
     Normal true).
Proof.
  exact (createResponder_unexpected_shape (Some "api ") None
           (ret (JObj KPlain [("status", JBool true)]))
           (JObj KPlain [("status", JBool true)]) [] [] eq_refl).
Defined.

(** When the unit of work throws, the responder calls the logger once, with
    the thrown value and its tag followed by "/catch", and then, on a sink
    that has sent nothing, answers 500 with [{status: false, error: m}],
    where [m] is the [message] of the thrown value or "Unexpected error"
    when that is falsy.  It resolves to true; the prefix given to
    makeRouteUtils is not part of the tag. *)
Theorem createResponder_work_throws
    (tagPrefix tag : option string) (workFn : @WorkFn Trace)
    (err : JsVal) (t t1 : Trace) :
  workFn t = (t1, Throw err) ->
  let base :=
    match tag with
    | Some s => if String.eqb s "" then "createResponder" else s
    | None => "createResponder"
    end in
  ru_createResponder (makeRouteUtils (Some recLogger) tagPrefix)
    (Some recorder) {| opt_tag := tag; opt_logger := None |} workFn t
  = (t1 ++ ELog err (base ++ "/catch")
        :: (if committed t1 then []
            else [EStatus (JNum 500);
                  EJson (JObj KPlain
                           [("status", JBool false);
                            ("error", if truthy (getProp err "message")
                                      then getProp err "message"
                                      else JStr "Unexpected error")])]),
     Normal true).
Proof.
  intros Hthrow base. cbn [makeRouteUtils ru_createResponder].
  unfold createResponder, tryCatch. unfold bind at 1. rewrite Hthrow.
  unfold pickLogger. cbn [opt_logger opt_tag].
  change (tagOr tag "createResponder") with base.
  unfold bind at 1. unfold recLogger at 1, emit at 1.
  unfold bind at 1. unfold bestEffort500, bind at 1, readHeadersSent.
  change (res_headersSent recorder ?x) with (committed x).
  rewrite committed_snoc_log.
  destruct (committed t1); cbn [negb].
  - reflexivity.
  - cbv [bind callStatus callJson recorder res_status res_json emit ret].
    rewrite <- !app_assoc. reflexivity.
Qed.

Lemma createResponder_work_throws_witness :
  ru_createResponder (makeRouteUtils (Some recLogger) (Some "api "))
    (Some recorder) {| opt_tag := Some "GET /achievements"; opt_logger := None |}
    (throw (JObj KError [("message", JStr "boom")])) []
  = ([ELog (JObj KError [("message", JStr "boom")]) "GET /achievements/catch";
      EStatus (JNum 500);
      EJson (JObj KPlain [("status", JBool false); ("error", JStr "boom")])],
     Normal true).
Proof.
  exact (createResponder_work_throws (Some "api ") (Some "GET /achievements")
           (throw (JObj KError [("message", JStr "boom")]))
           (JObj KError [("message", JStr "boom")]) [] [] eq_refl).
Defined.

(** On a sink without [status] that has sent nothing, a handler that
    returns makes both wrappers fail: the branch for a sink that failed the
    guard calls [res.status] all the same, the TypeError is logged under
    the tag followed by "/catch", and the [catch] block calls [res.status]
    again, so that the error leaves the wrapper. *)
Theorem no_status_sink_rejects
    (r : @ResLike Trace) (logger : @LoggerFn Trace) (tagPrefix : string)
    (handler : @Handler Trace) (options : @Options Trace)
    (req response : JsVal) (t t1 : Trace) :
  res_status r = None ->
  (forall x, res_headersSent r x = committed x) ->
  pickLogger options logger = recLogger ->
  handler req (Some r) t = (t1, Normal response) ->
  committed t1 = false ->
  let route := routeTag tagPrefix (opt_tag options) req in
  let base := tagOr (opt_tag options) "createResponder" in
  exists e, instanceofError e = true
    /\ wrapRoute logger tagPrefix handler options req (Some r) t
       = (t1 ++ [ELog (JObj KPlain [("message", JStr "Unexpected response shape");
                                    ("response", response);
                                    ("route", JStr route)]) route;
                 ELog e (route ++ "/catch")],
          Throw e)
    /\ createResponder logger (Some r) options (handler req (Some r)) t
       = (t1 ++ [ELog (JObj KPlain [("message", JStr "Unexpected response shape");
                                    ("response", response)]) base;
                 ELog e (base ++ "/catch")],
          Throw e).
Proof.
  intros Hnone Hsent Hlog Hret Hfresh route base.
  assert (capable (Some r) = false) as Hcap by (simpl; rewrite Hnone; reflexivity).
  assert (forall p1 g1 p2 g2,
             committed (t1 ++ [ELog p1 g1]) = false
             /\ committed ((t1 ++ [ELog p1 g1]) ++ [ELog p2 g2]) = false) as Hstill.
  { intros. rewrite !committed_snoc_log. split; exact Hfresh. }
  exists (typeError "res.status is not a function").
  split; [reflexivity |]. split.
  - unfold wrapRoute, tryCatch. unfold bind at 1. rewrite Hret.
    unfold bind at 1. rewrite (resolve_incapable _ _ _ Hcap), Hlog.
    fold route. unfold bind at 1. unfold recLogger at 1, emit at 1.
    unfold bestEffort500 at 1, bind at 1, readHeadersSent.
    rewrite Hsent, (proj1 (Hstill _ _ (JStr "") "")). cbn [negb].
    unfold bind at 1, callStatus at 1. rewrite Hnone. unfold throw at 1.
    unfold bind at 1. unfold recLogger at 1, emit at 1.
    unfold bestEffort500, bind at 1, readHeadersSent.
    rewrite Hsent, (proj2 (Hstill _ _ _ _)). cbn [negb].
    unfold bind, callStatus. rewrite Hnone. unfold throw.
    rewrite <- app_assoc. reflexivity.
  - unfold createResponder, tryCatch. unfold bind at 1. rewrite Hret.
    unfold bind at 1. rewrite (resolve_incapable _ _ _ Hcap), Hlog.
    fold base. unfold bind at 1. unfold recLogger at 1, emit at 1.
    unfold bind at 1. unfold bestEffort500 at 1, bind at 1, readHeadersSent.
    rewrite Hsent, (proj1 (Hstill _ _ (JStr "") "")). cbn [negb].
    unfold bind at 1, callStatus at 1. rewrite Hnone. unfold throw at 1.
    unfold bind at 1. unfold recLogger at 1, emit at 1.
    unfold bind at 1. unfold bestEffort500, bind at 1, readHeadersSent.
    rewrite Hsent, (proj2 (Hstill _ _ _ _)). cbn [negb].
    unfold bind, callStatus. rewrite Hnone. unfold throw.
    rewrite <- app_assoc. reflexivity.
Qed.

Lemma no_status_sink_rejects_witness :
  exists e, instanceofError e = true
    /\ snd (wrapRoute recLogger ""
              (fun _ _ => ret (JObj KPlain [("status", JBool true)]))
              noOptions JUndefined (Some recorderNoStatus) [])
       = Throw e.
Proof.
  destruct (no_status_sink_rejects recorderNoStatus recLogger ""
              (fun _ _ => ret (JObj KPlain [("status", JBool true)]))
              noOptions JUndefined (JObj KPlain [("status", JBool true)]) [] []
              eq_refl (fun x => eq_refl) eq_refl eq_refl eq_refl)
    as [e [He [Hwrap _]]].
  exists e. split; [exact He |]. rewrite Hwrap. reflexivity.
Defined.

(** ** Tags *)

Lemma append_empty (a b : string) : (a ++ b)%string = "" -> a = "" /\ b = "".
Proof. destruct a; simpl; [auto | discriminate]. Qed.

(** No logger is ever given an empty tag: the tag of wrapRoute and the tag
    of createResponder are not empty, whatever the options, the prefix and
    the request. *)
Theorem tags_are_not_empty (tagPrefix : string) (tag : option string) (req : JsVal) :
  routeTag tagPrefix tag req <> "" /\ tagOr tag "createResponder" <> "".
Proof.
  assert (forall dflt, dflt <> "" -> tagOr tag dflt <> "") as Hor.
  { intros dflt Hd. unfold tagOr. destruct tag as [s |]; [| exact Hd].
    destruct (String.eqb_spec s "") as [_ | Hs]; assumption. }
  split; [| apply Hor; discriminate].
  unfold routeTag.
  set (base := tagOr tag _).
  assert (base <> "") as Hbase.
  { apply Hor. intros E. apply append_empty in E as [_ E]. discriminate E. }
  destruct (String.eqb tagPrefix ""); [exact Hbase |].
  intros E. apply append_empty in E as [_ E]. contradiction.
Qed.

(** ** The fields of a result that matter *)

Lemma resolveTry_dropKey {W : Type}
    (res : @Sink W) (kind : ObjKind) (m : string) (ps : Props) :
  m <> "status" -> m <> "http" -> m <> "data" -> m <> "headers" ->
  resolveTry res (JObj kind (dropKey m ps)) = resolveTry res (JObj kind ps).
Proof.
  intros H1 H2 H3 H4.
  unfold resolveTry, applyHeaders, http, explicit, noData, hasStatus, isOk, isFail.
  rewrite (hasOwn_dropKey kind "status" m) by congruence.
  rewrite !(getProp_dropKey kind "status" m) by congruence.
  rewrite !(getProp_dropKey kind "http" m) by congruence.
  rewrite !(getProp_dropKey kind "data" m) by congruence.
  rewrite !(getProp_dropKey kind "headers" m) by congruence.
  reflexivity.
Qed.

(** resolveRouteResponse reads [status], [http], [data] and [headers] of a
    result and nothing else: two results that differ in any other field
    only are answered alike on every sink. *)
Theorem only_four_fields_are_read {W : Type}
    (res : @Sink W) (kind : ObjKind) (field : string) (ps1 ps2 : Props) (w : W) :
  field <> "status" -> field <> "http" -> field <> "data" -> field <> "headers" ->
  dropKey field ps1 = dropKey field ps2 ->
  resolveRouteResponse res (JObj kind ps1) w
  = resolveRouteResponse res (JObj kind ps2) w.
Proof.
  intros H1 H2 H3 H4 Hsame. unfold resolveRouteResponse.
  rewrite <- (resolveTry_dropKey res kind field ps1 H1 H2 H3 H4).
  rewrite <- (resolveTry_dropKey res kind field ps2 H1 H2 H3 H4).
  rewrite Hsame. reflexivity.
Qed.

Lemma only_four_fields_are_read_witness :
  resolveRouteResponse (Some recorder)
    (JObj KPlain [("status", JBool false); ("message", JStr "top level");
                  ("data", JStr "oops")]) []
  = resolveRouteResponse (Some recorder)
      (JObj KPlain [("status", JBool false); ("data", JStr "oops")]) [].
Proof.
  apply (only_four_fields_are_read (Some recorder) KPlain "message"
           [("status", JBool false); ("message", JStr "top level"); ("data", JStr "oops")]
           [("status", JBool false); ("data", JStr "oops")] []);
    try discriminate.
  reflexivity.
Defined.
